(** * Tenant-scoped retrieval index: [app/services/rag_service.py] and
      [app/tasks/rag_tasks.py]

    A shallow embedding of [RAGService] and of the reindexing task, with
    the Python effects written out: exceptions as a [result], the state
    of the process (vector collection, identifier supply, embedding
    calls) as an explicit [World] threaded through a small state and
    error monad.

    The service delegates to three collaborators whose code is not part
    of the repository: the text splitter, the embedding model and the
    vector store. The embedding model and the similarity measure are
    section variables; the splitter and the store are modelled from the
    contracts the specification gives for them. *)

From Stdlib Require Import ZArith String Ascii List Lia.
From stdpp Require Import base option list gmap strings sorting pretty.

Local Open Scope string_scope.
Set Warnings "-register-all".

(** ** Python values *)

(** The dynamically typed values that travel through the service:
    [None], integers, strings, lists and dictionaries with string keys.
    A dictionary keeps its insertion order, so it is an association list. *)
Inductive pyval :=
| PNone
| PInt (z : Z)
| PStr (s : string)
| PList (l : list pyval)
| PDict (d : list (string * pyval)).

Abbreviation dict := (list (string * pyval)).

(** [d.get(k)], and [d[k]] before the [KeyError]. *)
Fixpoint dict_get (k : string) (d : dict) : option pyval :=
  match d with
  | [] => None
  | (k', v) :: d' => if String.eqb k k' then Some v else dict_get k d'
  end.

(** [d.get(k, dflt)] *)
Definition dict_get_default (k : string) (dflt : pyval) (d : dict) : pyval :=
  match dict_get k d with
  | Some v => v
  | None => dflt
  end.

(** [d.get(k)] as an expression: [None] when the key is missing. *)
Definition dict_get_none (k : string) (d : dict) : pyval :=
  dict_get_default k PNone d.

(** Python truthiness, as used by [if doc_ids:], [if client_id:] and
    [if doc.metadata.get('doc_id')]. *)
Definition truthy (v : pyval) : bool :=
  match v with
  | PNone => false
  | PInt z => negb (Z.eqb z 0)
  | PStr s => negb (String.eqb s "")
  | PList l => match l with [] => false | _ => true end
  | PDict d => match d with [] => false | _ => true end
  end.

(** Lists and dictionaries are not hashable: using one as a dictionary
    key raises [TypeError]. *)
Definition hashable (v : pyval) : bool :=
  match v with
  | PList _ | PDict _ => false
  | _ => true
  end.

(** Equality of hashable values, as a dictionary key or a metadata
    filter compares them. *)
Definition key_eqb (a b : pyval) : bool :=
  match a, b with
  | PNone, PNone => true
  | PInt x, PInt y => Z.eqb x y
  | PStr x, PStr y => String.eqb x y
  | _, _ => false
  end.

(** ** Exceptions *)

Inductive exn :=
| KeyError (key : string)
| TypeError (msg : string)
| ValueError (msg : string)
| NameError (name : string)
| InvalidConfig
| StorageUnavailable
| EmbeddingUnavailable
| GenerationError.

(** [str(e)] *)
Definition exn_str (e : exn) : string :=
  match e with
  | KeyError key => "'" +:+ key +:+ "'"
  | TypeError msg => msg
  | ValueError msg => msg
  | NameError name => "name '" +:+ name +:+ "' is not defined"
  | InvalidConfig => "chunk overlap must be smaller than chunk size"
  | StorageUnavailable => "storage unavailable"
  | EmbeddingUnavailable => "embedding unavailable"
  | GenerationError => "generation unavailable"
  end.

Inductive result (A : Type) :=
| Ok (a : A)
| Raise (e : exn).
Arguments Ok {A} a.
Arguments Raise {A} e.

(** ** Slices of a string *)

(** [s[:n]] *)
Fixpoint str_take (n : nat) (s : string) : string :=
  match n, s with
  | S n', String c s' => String c (str_take n' s')
  | _, _ => EmptyString
  end.

(** [s[n:]] *)
Fixpoint str_drop (n : nat) (s : string) : string :=
  match n, s with
  | S n', String _ s' => str_drop n' s'
  | _, _ => s
  end.

(** [c * n] *)
Fixpoint str_repeat (c : ascii) (n : nat) : string :=
  match n with
  | 0 => EmptyString
  | S n' => String c (str_repeat c n')
  end.

(** ** The chunker *)

Module Chunker.

(** Modelled from the spec: the Chunker of section 4.1. The service
    delegates to [RecursiveCharacterTextSplitter(chunk_size=1000,
    chunk_overlap=200, length_function=len)], whose code is not in the
    repository. Only the hard character cuts are modelled, the
    fallback the contract prescribes when the text offers no natural
    boundary: a fragment holds at most [max_size] characters and the
    next one starts [max_size - overlap] characters further, so that
    it repeats the last [overlap] characters; a text of at most
    [max_size] characters is one fragment and the empty text none. *)
Fixpoint windows (fuel : nat) (text : string) (max_size step : nat)
  : list string :=
  match fuel with
  | 0 => []
  | S fuel' =>
      if Nat.eqb (String.length text) 0 then []
      else if Nat.leb (String.length text) max_size then [text]
      else str_take max_size text
             :: windows fuel' (str_drop step text) max_size step
  end.

(** Modelled from the spec: [chunk(text, max_size, overlap)], which
    fails with [InvalidConfig] when [overlap >= max_size]. Each step
    consumes at least one character, so the length of the text is fuel
    enough. *)
Definition chunk (text : string) (max_size overlap : nat)
  : result (list string) :=
  if Nat.leb max_size overlap then Raise InvalidConfig
  else Ok (windows (String.length text) text max_size (max_size - overlap)).

(** The last [n] characters of [a] are the first [n] characters of [b]. *)
Definition shares_overlap (n : nat) (a b : string) : Prop :=
  n <= String.length a /\ n <= String.length b /\
  str_drop (String.length a - n) a = str_take n b.

End Chunker.

(** ** The process state and its monad *)

(** A LangChain [Document]. *)
Record Document := mkDocument {
  page_content : string;
  metadata : dict;
}.

Section RAG.

(** The embedding model: [None] when it is unavailable for that text. *)
Variable Vec : Type.
Variable embed : string -> option Vec.
(** Cosine similarity, abstracted to an integer rank: only the order of
    the scores is used. *)
Variable similarity : Vec -> Vec -> Z.
(** The generative model behind the question-answering chain. *)
Variable llm : string -> list Document -> option string.

(** One record of the collection. *)
Record Fragment := mkFragment {
  frag_text : string;
  frag_meta : dict;
  frag_vec : Vec;
  created_at : nat;
}.

Record World := mkWorld {
  index : gmap string Fragment;   (* the collection, keyed by fragment id *)
  storage_up : bool;              (* is the storage reachable *)
  clock : nat;                    (* source of [created_at] *)
  uuid_next : nat;                (* supply of [uuid.uuid4()] *)
  embed_log : list string;        (* texts sent to the embedding model *)
  qa_chain : bool;                (* [self.qa_chain] is set *)
  retriever_client : option Z;    (* tenant of [self.qa_chain.retriever] *)
}.

Definition M (A : Type) : Type := World -> World * result A.

Definition ret {A} (a : A) : M A := fun w => (w, Ok a).
Definition raise {A} (e : exn) : M A := fun w => (w, Raise e).
Definition bind {A B} (m : M A) (k : A -> M B) : M B :=
  fun w =>
    match m w with
    | (w', Ok a) => k a w'
    | (w', Raise e) => (w', Raise e)
    end.
(** [try: body except Exception as e: handler(e)] *)
Definition try_except {A} (body : M A) (handler : exn -> M A) : M A :=
  fun w =>
    match body w with
    | (w', Ok a) => (w', Ok a)
    | (w', Raise e) => handler e w'
    end.
Definition lift_result {A} (r : result A) : M A := fun w => (w, r).

Notation "'let!' x ':=' c1 'in' c2" := (bind c1 (fun x => c2))
  (at level 10, x name, c1 at level 100, c2 at level 200,
   format "'[v' 'let!'  x  ':='  c1  'in' '/' c2 ']'").
Notation "'run!' c1 'in' c2" := (bind c1 (fun _ => c2))
  (at level 10, c1 at level 100, c2 at level 200,
   format "'[v' 'run!'  c1  'in' '/' c2 ']'").

Definition set_index (i : gmap string Fragment) (w : World) : World :=
  mkWorld i (storage_up w) (clock w) (uuid_next w) (embed_log w)
          (qa_chain w) (retriever_client w).

(** The world after [text] was sent to the embedding model. *)
Definition log_embed (text : string) (w : World) : World :=
  mkWorld (index w) (storage_up w) (clock w) (uuid_next w)
          (embed_log w ++ [text])%list (qa_chain w) (retriever_client w).

(** One call of the embedding model, recorded in [embed_log]. *)
Definition call_embed (text : string) : M Vec :=
  fun w =>
    match embed text with
    | Some v => (log_embed text w, Ok v)
    | None => (log_embed text w, Raise EmbeddingUnavailable)
    end.

(** [str(uuid.uuid4())]: a random identifier, modelled as the next
    name of an inexhaustible supply. *)
Definition uuid_of (n : nat) : string := "uuid4-" +:+ pretty n.

Definition set_uuid_next (n : nat) (w : World) : World :=
  mkWorld (index w) (storage_up w) (clock w) n (embed_log w)
          (qa_chain w) (retriever_client w).

Definition uuid4 : M string :=
  fun w => (set_uuid_next (S (uuid_next w)) w, Ok (uuid_of (uuid_next w))).

(** ** The vector store *)

(** Modelled from the spec: the Vector Index of section 4.2, which the
    service reaches through LangChain's [Chroma] wrapper (not in the
    repository). A metadata filter [{key: value, ...}] keeps the
    fragments whose metadata carry exactly these values. *)
Definition meta_matches (flt : dict) (md : dict) : bool :=
  forallb (fun kv =>
             match dict_get (fst kv) md with
             | Some v => key_eqb v (snd kv)
             | None => false
             end) flt.

(** Modelled from the spec: the fragments of the collection that pass
    the filter, the candidates of a search restricted to a tenant. *)
Definition matching (flt : dict) (i : gmap string Fragment)
  : list (string * Fragment) :=
  filter (fun kf => meta_matches flt (frag_meta (snd kf))) (map_to_list i).

(** Modelled from the spec: results come by descending similarity, ties
    broken by the more recent [created_at] first. *)
Definition closer (q : Vec) (a b : string * Fragment) : Prop :=
  (similarity q (frag_vec (snd b)) < similarity q (frag_vec (snd a)))%Z
  \/ (similarity q (frag_vec (snd b)) = similarity q (frag_vec (snd a))
      /\ created_at (snd b) <= created_at (snd a)).

#[local] Instance closer_dec q a b : Decision (closer q a b).
Proof. unfold closer. apply _. Defined.

(** Modelled from the spec: the candidates in the order of the
    results, best first. *)
Definition rank (q : Vec) (l : list (string * Fragment))
  : list (string * Fragment) :=
  merge_sort (closer q) l.

(** Modelled from the spec: a fragment as the store hands it back, a
    [Document] with its text and its metadata. *)
Definition to_document (kf : string * Fragment) : Document :=
  mkDocument (frag_text (snd kf)) (frag_meta (snd kf)).

(** Modelled from the spec: the documents a search returns for the
    query vector [q], at most [k] of the matching fragments, best
    first. *)
Definition hits (q : Vec) (k : nat) (flt : dict)
  (i : gmap string Fragment) : list Document :=
  take k (map to_document (rank q (matching flt i))).

(** Modelled from the spec: [search(tenant, vector, k)] behind
    [vectorstore.similarity_search(query, k=k, filter=flt)]: the query
    text is embedded, then the hits are returned; it fails with
    [StorageUnavailable] when the storage cannot be reached. *)
Definition similarity_search (query : string) (k : nat) (flt : dict)
  : M (list Document) :=
  let! q := call_embed query in
  fun w =>
    if storage_up w
    then (w, Ok (hits q k flt (index w)))
    else (w, Raise StorageUnavailable).

(** Modelled from the spec: [insert(fragment)], an upsert keyed by the
    fragment id, which the service stores as [metadata['doc_id']].
    Section 4.4 has the fragments of a call embedded and inserted one
    after the other, so that an embedding can fail when earlier
    fragments are already in the index: the fragment is embedded just
    before it is written. *)
Definition vs_insert (d : Document) : M unit :=
  let! v := call_embed (page_content d) in
  fun w =>
    if storage_up w then
      match dict_get "doc_id" (metadata d) with
      | Some (PStr id) =>
          (mkWorld (<[id := mkFragment (page_content d) (metadata d) v (clock w)]>
                      (index w))
                   (storage_up w) (S (clock w)) (uuid_next w) (embed_log w)
                   (qa_chain w) (retriever_client w), Ok tt)
      | _ => (w, Raise (ValueError "fragment without an id"))
      end
    else (w, Raise StorageUnavailable).

(** Modelled from the spec: [vectorstore.add_documents(docs)], the
    fragments of one call handed over together and inserted in order. *)
Fixpoint vs_add_documents (docs : list Document) : M unit :=
  match docs with
  | [] => ret tt
  | d :: docs' => run! vs_insert d in vs_add_documents docs'
  end.

(** Modelled from the spec: the collection without the fragments
    filed under one of [ids]. *)
Definition delete_keys (ids : list pyval) (i : gmap string Fragment)
  : gmap string Fragment :=
  fold_right (fun id acc =>
                match id with
                | PStr s => delete s acc
                | _ => acc
                end) i ids.

(** Modelled from the spec: [delete(fragment_ids)] behind
    [vectorstore.delete(ids)]: the listed fragments are removed, an id
    that is not in the collection is skipped. *)
Definition vs_delete (ids : list pyval) : M unit :=
  fun w =>
    if storage_up w then (set_index (delete_keys ids (index w)) w, Ok tt)
    else (w, Raise StorageUnavailable).

(** Modelled from the spec: [count(tenant_id)]. *)
Definition count (tenant : Z) (w : World) : nat :=
  length (matching [("client_id", PInt tenant)] (index w)).

(** ** [RAGService] *)

(** [self.text_splitter.split_text(content)] with the configuration of
    [__init__]: [chunk_size=1000], [chunk_overlap=200]. A content that
    is not a string makes the splitter raise. *)
Definition chunk_size : nat := 1000.
Definition chunk_overlap : nat := 200.

Definition split_text (content : pyval) : M (list string) :=
  match content with
  | PStr s => lift_result (Chunker.chunk s chunk_size chunk_overlap)
  | _ => raise (TypeError "expected string or bytes-like object")
  end.

(** [doc['content']] *)
Definition getitem (k : string) (d : dict) : M pyval :=
  match dict_get k d with
  | Some v => ret v
  | None => raise (KeyError k)
  end.

(** The metadata dictionary of lines 93-100. *)
Definition chunk_metadata (doc : dict) (client_id : Z) (i : nat)
  (doc_id : string) : dict :=
  [ ("client_id", PInt client_id);
    ("source_id", dict_get_none "source_id" doc);
    ("source_type", dict_get_default "source_type" (PStr "unknown") doc);
    ("title", dict_get_default "title" (PStr "") doc);
    ("chunk_index", PInt (Z.of_nat i));
    ("doc_id", PStr doc_id) ].

(** The inner loop [for i, chunk in enumerate(chunks)], lines 87-102:
    each chunk draws a fresh [doc_id]. The pairs are the entries
    appended to [doc_ids] and to [langchain_docs]. *)
Fixpoint build_chunks (doc : dict) (client_id : Z) (i : nat)
  (chunks : list string) : M (list (string * Document)) :=
  match chunks with
  | [] => ret []
  | chunk :: chunks' =>
      let! doc_id := uuid4 in
      let! rest := build_chunks doc client_id (S i) chunks' in
      ret ((doc_id, mkDocument chunk (chunk_metadata doc client_id i doc_id))
             :: rest)
  end.

(** The outer loop [for doc in documents], lines 83-102. *)
Fixpoint build_documents (documents : list dict) (client_id : Z)
  : M (list (string * Document)) :=
  match documents with
  | [] => ret []
  | doc :: documents' =>
      let! content := getitem "content" doc in
      let! chunks := split_text content in
      let! here := build_chunks doc client_id 0 chunks in
      let! rest := build_documents documents' client_id in
      ret (here ++ rest)%list
  end.

(** [RAGService.add_documents], lines 67-113. The handler logs and
    raises again. *)
Definition add_documents (documents : list dict) (client_id : Z)
  : M (list string) :=
  try_except
    (let! built := build_documents documents client_id in
     let langchain_docs := map snd built in
     let doc_ids := map fst built in
     run! (match langchain_docs with
           | [] => ret tt
           | _ => vs_add_documents langchain_docs
           end) in
     ret doc_ids)
    (fun e => raise e).

(** One entry of the list [search_documents] returns. A [Document] has
    no [score] attribute, so [getattr(doc, 'score', 0.0)] is always the
    default. *)
Record SearchResult := mkSearchResult {
  sr_content : string;
  sr_metadata : dict;
  sr_score : Z;
}.

Definition client_filter (client_id : Z) : dict :=
  [("client_id", PInt client_id)].

Definition to_result (doc : Document) : SearchResult :=
  mkSearchResult (page_content doc) (metadata doc) 0%Z.

(** [RAGService.search_documents], lines 115-148. The handler logs and
    returns the empty list. *)
Definition search_documents (query : string) (client_id : Z) (k : nat)
  : M (list SearchResult) :=
  try_except
    (let! results := similarity_search query k (client_filter client_id) in
     ret (map to_result results))
    (fun _ => ret []).

(** [RAGService.setup_qa_chain], lines 150-193. The retriever of line
    183 is built from [client_id], a name that is neither a parameter of
    the method nor a global of the module: evaluating the arguments of
    [RetrievalQA.from_chain_type] raises [NameError] before
    [self.qa_chain] is assigned, and the handler raises again. *)
Definition setup_qa_chain (gemini_api_key : string) : M unit :=
  try_except
    (raise (NameError "client_id"))
    (fun e => raise e).

(** The dictionary [query] returns. *)
Record Answer := mkAnswer {
  answer : string;
  sources : list Document;
  question : string;
}.

(** [self.qa_chain({"query": question})]: the retriever fetches the
    context and the generative model writes the answer. *)
Definition run_chain (question : string) : M (string * list Document) :=
  fun w =>
    match retriever_client w with
    | None => (w, Raise (ValueError "no retriever"))
    | Some client_id =>
        (let! docs := similarity_search question 5 (client_filter client_id) in
         match llm question docs with
         | Some text => ret (text, docs)
         | None => raise GenerationError
         end) w
    end.

Definition set_retriever (client_id : Z) : M unit :=
  fun w =>
    (mkWorld (index w) (storage_up w) (clock w) (uuid_next w) (embed_log w)
             (qa_chain w) (Some client_id), Ok tt).

Definition get_qa_chain : M bool := fun w => (w, Ok (qa_chain w)).

(** The [try] block of [query], lines 207-228. *)
Definition query_body (q : string) (client_id : Z) : M Answer :=
  let! chain := get_qa_chain in
  if negb chain
  then raise (ValueError "QA chain not initialized. Call setup_qa_chain first.")
  else
    run! set_retriever client_id in
    let! res := run_chain q in
    ret (mkAnswer (fst res) (snd res) q).

(** [RAGService.query], lines 195-236. *)
Definition query (q : string) (client_id : Z) : M Answer :=
  try_except
    (query_body q client_id)
    (fun e => ret (mkAnswer ("Error processing query: " +:+ exn_str e) [] q)).

(** The dictionary [sources] of [get_client_documents] is keyed by the
    source id, whatever value that is, and keeps its insertion order. *)
Abbreviation sources_dict := (list (pyval * dict)).

(** [source_id in sources] *)
Fixpoint sources_mem (k : pyval) (srcs : sources_dict) : bool :=
  match srcs with
  | [] => false
  | (k', _) :: srcs' => key_eqb k k' || sources_mem k srcs'
  end.

(** The group created at lines 253-258. *)
Definition new_group (source_id : pyval) (md : dict) : dict :=
  [ ("source_id", source_id);
    ("source_type", dict_get_default "source_type" (PStr "unknown") md);
    ("title", dict_get_default "title" (PStr "") md);
    ("chunks", PList []) ].

(** The entry appended at lines 260-264. *)
Definition chunk_entry (doc : Document) : pyval :=
  PDict [ ("content", PStr (page_content doc));
          ("chunk_index",
           dict_get_default "chunk_index" (PInt 0) (metadata doc));
          ("metadata", PDict (metadata doc)) ].

(** [group['chunks'].append(c)] *)
Fixpoint append_chunk (c : pyval) (group : dict) : dict :=
  match group with
  | [] => []
  | (k, v) :: group' =>
      if String.eqb k "chunks"
      then (k, match v with
               | PList l => PList (l ++ [c])%list
               | _ => v
               end) :: group'
      else (k, v) :: append_chunk c group'
  end.

(** [sources[k]['chunks'].append(c)] *)
Fixpoint sources_append (k : pyval) (c : pyval) (srcs : sources_dict)
  : sources_dict :=
  match srcs with
  | [] => []
  | (k', g) :: srcs' =>
      if key_eqb k k' then (k', append_chunk c g) :: srcs'
      else (k', g) :: sources_append k c srcs'
  end.

(** One turn of the loop of lines 250-264. *)
Definition group_step (srcs : sources_dict) (doc : Document)
  : result sources_dict :=
  let source_id :=
    dict_get_default "source_id" (PStr "unknown") (metadata doc) in
  if hashable source_id then
    let srcs1 :=
      if sources_mem source_id srcs then srcs
      else (srcs ++ [(source_id, new_group source_id (metadata doc))])%list in
    Ok (sources_append source_id (chunk_entry doc) srcs1)
  else Raise (TypeError "unhashable type").

Fixpoint group_by_source (srcs : sources_dict) (results : list Document)
  : result sources_dict :=
  match results with
  | [] => Ok srcs
  | doc :: results' =>
      match group_step srcs doc with
      | Ok srcs' => group_by_source srcs' results'
      | Raise e => Raise e
      end
  end.

(** [RAGService.get_client_documents], lines 238-270: the fragments of
    the tenant are fetched by a similarity search on the empty string. *)
Definition get_client_documents (client_id : Z) : M (list dict) :=
  try_except
    (let! results := similarity_search "" 1000 (client_filter client_id) in
     let! srcs := lift_result (group_by_source [] results) in
     ret (map snd srcs))
    (fun _ => ret []).

(** The comprehension of line 283. *)
Definition result_doc_ids (results : list Document) : list pyval :=
  map (fun doc => dict_get_none "doc_id" (metadata doc))
      (filter (fun doc => truthy (dict_get_none "doc_id" (metadata doc)))
              results).

(** [RAGService.delete_client_documents], lines 272-294. *)
Definition delete_client_documents (client_id : Z) : M bool :=
  try_except
    (let! results := similarity_search "" 1000 (client_filter client_id) in
     let doc_ids := result_doc_ids results in
     run! (match doc_ids with
           | [] => ret tt
           | _ => vs_delete doc_ids
           end) in
     ret true)
    (fun _ => ret false).

(** ** [app/tasks/rag_tasks.py] *)

(** The dictionary built at lines 119-124 from one group of
    [get_client_documents]. *)
Definition doc_data_of (doc : dict) : dict :=
  [ ("content", dict_get_default "content" (PStr "") doc);
    ("title", dict_get_default "title" (PStr "") doc);
    ("source_type", dict_get_default "source_type" (PStr "unknown") doc);
    ("metadata", dict_get_default "metadata" (PDict []) doc) ].

(** The loop of lines 118-125. *)
Fixpoint readd_documents (documents : list dict) (client_id : Z) : M unit :=
  match documents with
  | [] => ret tt
  | doc :: documents' =>
      run! add_documents [doc_data_of doc] client_id in
      readd_documents documents' client_id
  end.

(** [reindex_documents_task], lines 102-145; [client_id] defaults to
    [None]. The progress reports to Celery are not modelled. *)
Definition reindex_documents_task (client_id : option Z) : M dict :=
  try_except
    (match client_id with
     | Some c =>
         if truthy (PInt c) then
           let! documents := get_client_documents c in
           run! delete_client_documents c in
           run! readd_documents documents c in
           ret [ ("status", PStr "completed");
                 ("client_id", PInt c);
                 ("documents_reindexed",
                  PInt (Z.of_nat (length documents))) ]
         else
           ret [ ("status", PStr "completed");
                 ("message", PStr "Reindexing completed") ]
     | None =>
         ret [ ("status", PStr "completed");
               ("message", PStr "Reindexing completed") ]
     end)
    (fun e => ret [ ("status", PStr "failed"); ("error", PStr (exn_str e)) ]).

End RAG.

Arguments mkFragment {Vec}.
Arguments frag_text {Vec}.
Arguments frag_meta {Vec}.
Arguments frag_vec {Vec}.
Arguments created_at {Vec}.
Arguments mkWorld {Vec}.
Arguments index {Vec}.
Arguments storage_up {Vec}.
Arguments clock {Vec}.
Arguments uuid_next {Vec}.
Arguments embed_log {Vec}.
Arguments qa_chain {Vec}.
Arguments retriever_client {Vec}.
Arguments ret {Vec A}.
Arguments raise {Vec A}.
Arguments bind {Vec A B}.
Arguments try_except {Vec A}.
Arguments lift_result {Vec A}.
Arguments set_index {Vec}.
Arguments log_embed {Vec}.
Arguments call_embed {Vec}.
Arguments uuid4 {Vec}.
Arguments set_uuid_next {Vec}.
Arguments matching {Vec}.
Arguments closer {Vec}.
Arguments rank {Vec}.
Arguments to_document {Vec}.
Arguments hits {Vec}.
Arguments similarity_search {Vec}.
Arguments vs_insert {Vec}.
Arguments vs_add_documents {Vec}.
Arguments delete_keys {Vec}.
Arguments vs_delete {Vec}.
Arguments count {Vec}.
Arguments split_text {Vec}.
Arguments getitem {Vec}.
Arguments build_chunks {Vec}.
Arguments build_documents {Vec}.
Arguments add_documents {Vec}.
Arguments search_documents {Vec}.
Arguments setup_qa_chain {Vec}.
Arguments run_chain {Vec}.
Arguments set_retriever {Vec}.
Arguments get_qa_chain {Vec}.
Arguments query_body {Vec}.
Arguments query {Vec}.
Arguments get_client_documents {Vec}.
Arguments delete_client_documents {Vec}.
Arguments readd_documents {Vec}.
Arguments reindex_documents_task {Vec}.

(** What a call returned: its list, or nothing when it raised. *)
Definition returned {W A} (x : W * result (list A)) : list A :=
  match snd x with
  | Ok l => l
  | Raise _ => []
  end.

(** What the loops of [add_documents] build for the client [c] when the
    supply stands at [n]: the identifiers are the next ones of the
    supply, and every document carries the client and its own
    identifier. *)
Definition well_built (c : Z) (n : nat) (built : list (string * Document))
  : Prop :=
  map fst built = map uuid_of (seq n (length built))
  /\ Forall (fun p =>
               dict_get "client_id" (metadata (snd p)) = Some (PInt c)
               /\ dict_get "doc_id" (metadata (snd p)) = Some (PStr (fst p)))
            built.

(** A collection as [add_documents] fills it: every fragment is filed
    under the [doc_id] of its metadata, and no identifier is empty. *)
Definition index_wf {Vec} (i : gmap string (Fragment Vec)) : Prop :=
  forall id f,
    i !! id = Some f ->
    dict_get "doc_id" (frag_meta f) = Some (PStr id) /\ id <> "".

(** The number of chunks a group of [get_client_documents] lists. *)
Definition chunks_of (group : dict) : nat :=
  match dict_get "chunks" group with
  | Some (PList l) => length l
  | _ => 0
  end.

Definition total_chunks (groups : list dict) : nat :=
  fold_right (fun g n => chunks_of g + n) 0 groups.

(** ** The callers: [app/tasks/rag_tasks.py] and
       [app/api/v1/endpoints/rag.py] *)

(** What a caller can raise: FastAPI's [HTTPException], a bare
    [Exception(msg)], or an exception that comes up from the service. *)
Inductive caller_exn :=
| HTTPException (status_code : nat) (detail : string)
| PlainException (msg : string)
| FromService (e : exn).

(** [str(e)] in the handlers of the callers; their first handler hands
    an [HTTPException] on before its text is ever read. *)
Definition caller_str (e : caller_exn) : string :=
  match e with
  | HTTPException _ detail => detail
  | PlainException msg => msg
  | FromService e => exn_str e
  end.

Inductive outcome (A : Type) :=
| Returned (a : A)
| Thrown (e : caller_exn).
Arguments Returned {A} a.
Arguments Thrown {A} e.

(** The answer of an endpoint: the body with status 200, or the status
    and the detail of the [HTTPException] that leaves it. *)
Inductive http (A : Type) :=
| Http200 (body : A)
| HttpError (status_code : nat) (detail : string).
Arguments Http200 {A} body.
Arguments HttpError {A} status_code detail.

Definition http_status {A} (r : http A) : nat :=
  match r with
  | Http200 _ => 200
  | HttpError status_code _ => status_code
  end.

Section Callers.

Context {Vec : Type}.
Variable embed : string -> option Vec.
Variable similarity : Vec -> Vec -> Z.
Variable llm : string -> list Document -> option string.
(** [db.query(Client).filter(Client.id == client_id).first()] finds a
    client. *)
Variable client_exists : Z -> bool.
(** [settings.gemini_api_key] *)
Variable gemini_api_key : option string.

Definition C (A : Type) : Type := World Vec -> World Vec * outcome A.

Definition cret {A} (a : A) : C A := fun w => (w, Returned a).
Definition craise {A} (e : caller_exn) : C A := fun w => (w, Thrown e).
Definition cbind {A B} (m : C A) (k : A -> C B) : C B :=
  fun w =>
    match m w with
    | (w', Returned a) => k a w'
    | (w', Thrown e) => (w', Thrown e)
    end.

(** A call into the service. *)
Definition call {A} (m : World Vec -> World Vec * result A) : C A :=
  fun w =>
    match m w with
    | (w', Ok a) => (w', Returned a)
    | (w', Raise e) => (w', Thrown (FromService e))
    end.

Notation "'let!' x ':=' c1 'in' c2" := (cbind c1 (fun x => c2))
  (at level 10, x name, c1 at level 100, c2 at level 200,
   format "'[v' 'let!'  x  ':='  c1  'in' '/' c2 ']'").
Notation "'run!' c1 'in' c2" := (cbind c1 (fun _ => c2))
  (at level 10, c1 at level 100, c2 at level 200,
   format "'[v' 'run!'  c1  'in' '/' c2 ']'").

(** [if not settings.gemini_api_key]: unset or empty. *)
Definition key_configured : bool :=
  match gemini_api_key with
  | Some key => negb (String.eqb key "")
  | None => false
  end.

Definition the_key : string :=
  match gemini_api_key with
  | Some key => key
  | None => ""
  end.

(** *** The tasks *)

(** The handler every task ends with: [return {"status": "failed",
    "error": str(e)}]. *)
Definition task (body : C dict) : World Vec -> World Vec * dict :=
  fun w =>
    match body w with
    | (w', Returned d) => (w', d)
    | (w', Thrown e) =>
        (w', [ ("status", PStr "failed"); ("error", PStr (caller_str e)) ])
    end.

(** Lines 26-29 and 78-81 of the tasks. *)
Definition require_client_task (client_id : Z) : C unit :=
  if client_exists client_id then cret tt
  else craise (PlainException
                 ("Client " +:+ pretty client_id +:+ " not found")).

(** [process_document_task], lines 19-45. *)
Definition process_document_task (client_id : Z) (document_data : dict)
  : World Vec -> World Vec * dict :=
  task
    (run! require_client_task client_id in
     let documents := [document_data] in
     let! doc_ids := call (add_documents embed documents client_id) in
     cret [ ("status", PStr "completed");
            ("client_id", PInt client_id);
            ("document_ids", PList (map PStr doc_ids)) ]).

(** [setup_rag_system_task], lines 48-68. *)
Definition setup_rag_system_task : World Vec -> World Vec * dict :=
  task
    (run! (if key_configured then cret tt
           else craise (PlainException "Gemini API key not configured")) in
     run! call (setup_qa_chain the_key) in
     cret [ ("status", PStr "completed");
            ("message", PStr "RAG system setup completed successfully") ]).

(** [cleanup_client_data_task], lines 71-99. *)
Definition cleanup_client_data_task (client_id : Z)
  : World Vec -> World Vec * dict :=
  task
    (run! require_client_task client_id in
     let! success :=
       call (delete_client_documents embed similarity client_id) in
     if success : bool then
       cret [ ("status", PStr "completed");
              ("client_id", PInt client_id);
              ("message", PStr "Client data cleaned up successfully") ]
     else craise (PlainException "Failed to delete client documents")).

(** *** The endpoints *)

(** The two handlers every endpoint ends with: an [HTTPException] is
    raised again, any other exception becomes a 500 with its text. *)
Definition route {A} (body : C A) : World Vec -> World Vec * http A :=
  fun w =>
    match body w with
    | (w', Returned a) => (w', Http200 a)
    | (w', Thrown (HTTPException status_code detail)) =>
        (w', HttpError status_code detail)
    | (w', Thrown e) => (w', HttpError 500 (caller_str e))
    end.

Definition require_client (client_id : Z) : C unit :=
  if client_exists client_id then cret tt
  else craise (HTTPException 404 "Client not found").

Definition require_key : C unit :=
  if key_configured then cret tt
  else craise (HTTPException 400 "Gemini API key not configured").

(** [POST /query], lines 41-72. *)
Definition query_rag (q : string) (client_id : Z)
  : World Vec -> World Vec * http Answer :=
  route
    (run! require_client client_id in
     run! require_key in
     let! chain := call get_qa_chain in
     run! (if negb chain then call (setup_qa_chain the_key) else cret tt) in
     let! result := call (query embed similarity llm q client_id) in
     cret (mkAnswer (answer result) (sources result) (question result))).

(** [POST /search], lines 76-100. *)
Definition search_documents_endpoint (q : string) (client_id : Z) (k : nat)
  : World Vec -> World Vec * http (list SearchResult) :=
  route
    (run! require_client client_id in
     let! results := call (search_documents embed similarity q client_id k) in
     cret results).

(** The document [POST /documents] builds, lines 115-120:
    [document_request.metadata or {}] is the metadata of the request,
    or the empty dictionary when there is none. *)
Definition document_of_request (content title source_type : string)
  (md : option dict) : dict :=
  [ ("content", PStr content);
    ("title", PStr title);
    ("source_type", PStr source_type);
    ("metadata", PDict (match md with
                        | Some d => d
                        | None => []
                        end)) ].

(** [POST /documents], lines 103-133. *)
Definition add_document (client_id : Z) (content title source_type : string)
  (md : option dict) : World Vec -> World Vec * http dict :=
  route
    (run! require_client client_id in
     let documents := [document_of_request content title source_type md] in
     let! doc_ids := call (add_documents embed documents client_id) in
     cret [ ("message", PStr "Document added successfully");
            ("document_ids", PList (map PStr doc_ids)) ]).

(** [GET /documents/{client_id}], lines 136-156. *)
Definition get_client_documents_endpoint (client_id : Z)
  : World Vec -> World Vec * http (list dict) :=
  route
    (run! require_client client_id in
     let! documents :=
       call (get_client_documents embed similarity client_id) in
     cret documents).

(** [DELETE /documents/{client_id}], lines 159-182. *)
Definition delete_client_documents_endpoint (client_id : Z)
  : World Vec -> World Vec * http dict :=
  route
    (run! require_client client_id in
     let! success :=
       call (delete_client_documents embed similarity client_id) in
     if success : bool then
       cret [ ("message", PStr "Client documents deleted successfully") ]
     else craise (HTTPException 500 "Failed to delete documents")).

(** [POST /setup], lines 185-200. *)
Definition setup_rag_system : World Vec -> World Vec * http dict :=
  route
    (run! require_key in
     run! call (setup_qa_chain the_key) in
     cret [ ("message", PStr "RAG system setup completed successfully") ]).

(** *** A run of the service *)

(** What reaches the service in the life of a process: the calls of
    its methods, the tasks and the endpoints; and, from outside, the
    storage that comes and goes. *)
Inductive event :=
| AddDocuments (documents : list dict) (client_id : Z)
| SearchDocuments (q : string) (client_id : Z) (k : nat)
| SetupQaChain (key : string)
| Query (q : string) (client_id : Z)
| GetClientDocuments (client_id : Z)
| DeleteClientDocuments (client_id : Z)
| ProcessDocumentTask (client_id : Z) (document_data : dict)
| SetupRagSystemTask
| CleanupClientDataTask (client_id : Z)
| ReindexDocumentsTask (client_id : option Z)
| QueryRag (q : string) (client_id : Z)
| AddDocument (client_id : Z) (content title source_type : string)
              (md : option dict)
| SearchDocumentsEndpoint (q : string) (client_id : Z) (k : nat)
| GetClientDocumentsEndpoint (client_id : Z)
| DeleteClientDocumentsEndpoint (client_id : Z)
| SetupRagSystem
| StorageChange (up : bool).

Definition set_storage (up : bool) (w : World Vec) : World Vec :=
  mkWorld (index w) up (clock w) (uuid_next w) (embed_log w)
          (qa_chain w) (retriever_client w).

(** The state an event leaves. *)
Definition step (w : World Vec) (ev : event) : World Vec :=
  match ev with
  | AddDocuments documents c => fst (add_documents embed documents c w)
  | SearchDocuments q c k => fst (search_documents embed similarity q c k w)
  | SetupQaChain key => fst (setup_qa_chain key w)
  | Query q c => fst (query embed similarity llm q c w)
  | GetClientDocuments c => fst (get_client_documents embed similarity c w)
  | DeleteClientDocuments c =>
      fst (delete_client_documents embed similarity c w)
  | ProcessDocumentTask c d => fst (process_document_task c d w)
  | SetupRagSystemTask => fst (setup_rag_system_task w)
  | CleanupClientDataTask c => fst (cleanup_client_data_task c w)
  | ReindexDocumentsTask c =>
      fst (reindex_documents_task embed similarity c w)
  | QueryRag q c => fst (query_rag q c w)
  | AddDocument c content title source_type md =>
      fst (add_document c content title source_type md w)
  | SearchDocumentsEndpoint q c k => fst (search_documents_endpoint q c k w)
  | GetClientDocumentsEndpoint c => fst (get_client_documents_endpoint c w)
  | DeleteClientDocumentsEndpoint c =>
      fst (delete_client_documents_endpoint c w)
  | SetupRagSystem => fst (setup_rag_system w)
  | StorageChange up => set_storage up w
  end.

Definition run (w : World Vec) (events : list event) : World Vec :=
  fold_left step events w.

End Callers.

(** Every key of the collection was drawn from the supply of
    identifiers, before where the supply stands now. *)
Definition keys_drawn {Vec} (w : World Vec) : Prop :=
  forall id f,
    index w !! id = Some f -> exists n, id = uuid_of n /\ n < uuid_next w.

(** A method, task or endpoint keeps [I] when [I] holds of the state
    it leaves whenever it held of the state it found, whatever it
    returns or raises. *)
Definition keeps {Vec A} (I : World Vec -> Prop)
  (m : World Vec -> World Vec * A) : Prop :=
  forall w, I w -> I (fst (m w)).

(** ** A concrete deployment, for the scenarios *)

Module Scenario.

(** An embedding model that always answers: the vector of a text is
    its length. *)
Definition embed_len (s : string) : option nat := Some (String.length s).


Definition near (a b : nat) : Z := (- Z.abs (Z.of_nat a - Z.of_nat b))%Z.

Definition llm_echo (q : string) (docs : list Document) : option string :=
  Some q.

(** A fresh process: empty collection, storage reachable. *)
Definition fresh : World nat := mkWorld ∅ true 0 0 [] false None.

(** The same process while the storage cannot be reached. *)
Definition offline : World nat := mkWorld ∅ false 0 0 [] false None.

(** A document of 2,500 characters without any natural boundary. *)
Definition text2500 : string := str_repeat "a"%char 2500.

Definition doc2500 : dict :=
  [ ("content", PStr text2500); ("source_id", PInt 1);
    ("source_type", PStr "manual"); ("title", PStr "notes") ].



Definition note : dict :=
  [ ("content", PStr "a short note"); ("source_id", PInt 3);
    ("source_type", PStr "manual"); ("title", PStr "note") ].

(** Tenant 7 after the ingestion of [doc2500]: three fragments. *)
Definition ingested : World nat :=
  fst (add_documents embed_len [doc2500] 7%Z fresh).

(** The same collection once tenant 8 has added a note. *)
Definition shared : World nat :=
  fst (add_documents embed_len [note] 8%Z ingested).

(** The collection of [ingested] in a process whose chain is set. *)
Definition answering : World nat :=
  mkWorld (index ingested) true 3 3 [] true None.

(** Tenant 7 with 1001 fragments, one per note. *)
Definition crowded : World nat :=
  fst (add_documents embed_len (repeat note 1001) 7%Z fresh).

End Scenario.

(** A session of the deployment: the clients 7 and 8 exist, a key is
    configured, and these events reach the service in this order. *)
Module Session.

Definition client_exists (c : Z) : bool := Z.eqb c 7 || Z.eqb c 8.

Definition gemini_api_key : option string := Some "key".

Definition events : list event :=
  [ SetupRagSystemTask;
    ProcessDocumentTask 7 Scenario.doc2500;
    StorageChange false;
    QueryRag "what is in the notes" 7;
    SearchDocuments "notes" 7 5;
    StorageChange true;
    AddDocument 8 "a short note" "note" "manual" None;
    CleanupClientDataTask 9;
    ReindexDocumentsTask (Some 8%Z) ].

(** The state the session leaves of a fresh process. *)
Definition closing : World nat :=
  run Scenario.embed_len Scenario.near Scenario.llm_echo
      client_exists gemini_api_key Scenario.fresh events.

End Session.

(** * Properties *)

(** ** Slices *)

Lemma length_str_take n s :
  String.length (str_take n s) = Nat.min n (String.length s).
Proof.
  revert s; induction n as [|n IH]; intros [|c s]; simpl; auto.
Qed.

Lemma length_str_drop n s :
  String.length (str_drop n s) = String.length s - n.
Proof.
  revert s; induction n as [|n IH]; intros [|c s]; simpl; auto.
Qed.

Lemma str_take_take n m s :
  str_take n (str_take m s) = str_take (Nat.min n m) s.
Proof.
  revert m s; induction n as [|n IH]; intros [|m] [|c s]; simpl; auto.
  by rewrite IH.
Qed.

Lemma str_drop_take n m s :
  str_drop n (str_take m s) = str_take (m - n) (str_drop n s).
Proof.
  revert m s; induction n as [|n IH]; intros [|m] [|c s]; simpl; auto.
  by destruct (m - n).
Qed.

Lemma str_drop_drop n m s :
  str_drop n (str_drop m s) = str_drop (m + n) s.
Proof.
  revert s; induction m as [|m IH]; intros [|c s]; simpl; auto.
  by destruct n.
Qed.

(** ** The chunker *)

Lemma windows_unfold fuel text max_size step :
  Chunker.windows (S fuel) text max_size step =
  if Nat.eqb (String.length text) 0 then []
  else if Nat.leb (String.length text) max_size then [text]
  else str_take max_size text
         :: Chunker.windows fuel (str_drop step text) max_size step.
Proof. reflexivity. Qed.

(** No fragment is longer than [max_size]. *)
Lemma windows_bounded fuel text max_size step :
  Forall (fun f => String.length f <= max_size)
         (Chunker.windows fuel text max_size step).
Proof.
  revert text; induction fuel as [|fuel IH]; intros text; simpl.
  - constructor.
  - destruct (Nat.eqb_spec (String.length text) 0); [constructor|].
    destruct (Nat.leb_spec (String.length text) max_size).
    + repeat constructor; lia.
    + constructor; [rewrite length_str_take; lia | apply IH].
Qed.

(** The empty text has no fragment, a text that fits has one. *)
Lemma chunk_empty max_size overlap :
  overlap < max_size -> Chunker.chunk "" max_size overlap = Ok [].
Proof.
  intros H. unfold Chunker.chunk.
  destruct (Nat.leb_spec max_size overlap); [lia | reflexivity].
Qed.

Lemma windows_long fuel text max_size step :
  max_size < String.length text ->
  Chunker.windows (S fuel) text max_size step =
  str_take max_size text
    :: Chunker.windows fuel (str_drop step text) max_size step.
Proof.
  intros H. rewrite windows_unfold.
  destruct (Nat.eqb_spec (String.length text) 0); [lia|].
  destruct (Nat.leb_spec (String.length text) max_size); [lia|reflexivity].
Qed.

Lemma windows_short fuel text max_size step :
  0 < String.length text <= max_size ->
  Chunker.windows (S fuel) text max_size step = [text].
Proof.
  intros H. rewrite windows_unfold.
  destruct (Nat.eqb_spec (String.length text) 0); [lia|].
  destruct (Nat.leb_spec (String.length text) max_size); [reflexivity|lia].
Qed.

(** A text that needs exactly three windows. *)
Lemma windows_three fuel text max_size step :
  max_size < String.length text - step ->
  0 < String.length text - (step + step) <= max_size ->
  Chunker.windows (S (S (S fuel))) text max_size step =
  [ str_take max_size text;
    str_take max_size (str_drop step text);
    str_drop (step + step) text ].
Proof.
  intros H1 H2.
  rewrite windows_long by lia.
  rewrite windows_long by (rewrite length_str_drop; lia).
  rewrite str_drop_drop.
  rewrite windows_short by (rewrite length_str_drop; lia).
  reflexivity.
Qed.

(** A full window and the window cut [step] characters further share
    the [max_size - step] characters in between. *)
Lemma shares_overlap_full text max_size step :
  step <= max_size ->
  max_size + step <= String.length text ->
  Chunker.shares_overlap (max_size - step)
    (str_take max_size text) (str_take max_size (str_drop step text)).
Proof.
  intros H1 H2. unfold Chunker.shares_overlap.
  rewrite !length_str_take, length_str_drop.
  repeat split; try lia.
  replace (Nat.min max_size (String.length text) - (max_size - step))
    with step by lia.
  rewrite str_drop_take, str_take_take.
  f_equal. lia.
Qed.

Lemma shares_overlap_last text max_size step :
  step <= max_size ->
  max_size <= String.length text ->
  max_size - step <= String.length text - step ->
  Chunker.shares_overlap (max_size - step)
    (str_take max_size text) (str_drop step text).
Proof.
  intros H1 H2 H3. unfold Chunker.shares_overlap.
  rewrite !length_str_take, length_str_drop.
  repeat split; try lia.
  replace (Nat.min max_size (String.length text) - (max_size - step))
    with step by lia.
  apply str_drop_take.
Qed.

(** C5, as amended: a document of 2,500 characters, cut with
    [max_size = 1000] and [overlap = 200], yields exactly three
    fragments, of 1000, 1000 and 900 characters, and each fragment
    starts with the last 200 characters of the one before. *)
Theorem chunk_2500_three_fragments (text : string) :
  String.length text = 2500 ->
  exists f1 f2 f3,
    Chunker.chunk text 1000 200 = Ok [f1; f2; f3]
    /\ String.length f1 = 1000
    /\ String.length f2 = 1000
    /\ String.length f3 = 900
    /\ Chunker.shares_overlap 200 f1 f2
    /\ Chunker.shares_overlap 200 f2 f3.
Proof.
  intros Hlen.
  exists (str_take 1000 text), (str_take 1000 (str_drop 800 text)),
         (str_drop (800 + 800) text).
  split; [|split; [|split; [|split; [|split]]]].
  - unfold Chunker.chunk.
    change (Nat.leb 1000 200) with false. cbv iota.
    f_equal. rewrite Hlen.
    apply (windows_three 2497 text 1000 800); rewrite Hlen; lia.
  - rewrite length_str_take; lia.
  - rewrite length_str_take, length_str_drop; lia.
  - rewrite length_str_drop; lia.
  - apply (shares_overlap_full text 1000 800); lia.
  - rewrite <- str_drop_drop.
    apply (shares_overlap_last (str_drop 800 text) 1000 800);
      rewrite ?length_str_drop; lia.
Qed.

Lemma chunk_2500_three_fragments_witness :
  exists f1 f2 f3,
    Chunker.chunk Scenario.text2500 1000 200 = Ok [f1; f2; f3]
    /\ String.length f1 = 1000
    /\ String.length f2 = 1000
    /\ String.length f3 = 900
    /\ Chunker.shares_overlap 200 f1 f2
    /\ Chunker.shares_overlap 200 f2 f3.
Proof.
  apply (chunk_2500_three_fragments Scenario.text2500).
  vm_compute. reflexivity.
Defined.

(** C5, as stated, fails on the document of 2,500 letters [a]: the
    chunker returns three fragments, not four. *)
Lemma chunk_2500_not_four :
  exists l,
    Chunker.chunk Scenario.text2500 1000 200 = Ok l /\ length l <> 4.
Proof.
  eexists. split.
  - vm_compute. reflexivity.
  - simpl. lia.
Qed.

(** ** The monad *)

Section Properties.

Context {Vec : Type}.
Variable embed : string -> option Vec.
Variable similarity : Vec -> Vec -> Z.
Variable llm : string -> list Document -> option string.

Lemma bind_ok {A B} (m : M Vec A) (k : A -> M Vec B) w w' b :
  bind m k w = (w', Ok b) ->
  exists w1 a, m w = (w1, Ok a) /\ k a w1 = (w', Ok b).
Proof.
  unfold bind. destruct (m w) as [w1 [a|e]]; intros H; [eauto | discriminate].
Qed.

(** A handler that raises again is no handler. *)
Lemma try_except_reraise {A} (m : M Vec A) w :
  try_except m (fun e => raise e) w = m w.
Proof. unfold try_except, raise. by destruct (m w) as [w1 [a|e]]. Qed.

(** ** The vector store *)

Lemma key_eqb_int v z : key_eqb v (PInt z) = true -> v = PInt z.
Proof.
  destruct v; simpl; try discriminate.
  intros H. apply Z.eqb_eq in H. by subst.
Qed.

Lemma meta_matches_client c md :
  meta_matches (client_filter c) md = true ->
  dict_get "client_id" md = Some (PInt c).
Proof.
  unfold meta_matches, client_filter. simpl.
  destruct (dict_get "client_id" md) as [v|]; [|discriminate].
  rewrite andb_true_r. intros H. by rewrite (key_eqb_int _ _ H).
Qed.

Lemma elem_of_matching flt (i : gmap string (Fragment Vec)) kf :
  kf ∈ matching flt i ->
  meta_matches flt (frag_meta (snd kf)) = true /\ i !! fst kf = Some (snd kf).
Proof.
  unfold matching. rewrite list_elem_of_filter.
  intros [HP Hin]. split.
  - by apply Is_true_eq_true.
  - destruct kf as [k f]. by apply elem_of_map_to_list.
Qed.

Lemma rank_Permutation q (l : list (string * Fragment Vec)) :
  rank similarity q l ≡ₚ l.
Proof. apply merge_sort_Permutation. Qed.

Lemma similarity_search_eq query k flt w :
  similarity_search embed similarity query k flt w =
  match embed query with
  | Some q =>
      if storage_up w
      then (log_embed query w, Ok (hits similarity q k flt (index w)))
      else (log_embed query w, Raise StorageUnavailable)
  | None => (log_embed query w, Raise EmbeddingUnavailable)
  end.
Proof.
  unfold similarity_search, bind, call_embed.
  destruct (embed query); reflexivity.
Qed.

Lemma elem_of_hits q k flt i doc :
  doc ∈ hits similarity q k flt i ->
  exists kf, doc = to_document kf /\ kf ∈ matching flt i.
Proof.
  unfold hits. intros H.
  apply subseteq_take in H.
  apply list_elem_of_In, (in_map_iff (to_document (Vec:=Vec))) in H as (kf & <- & Hin).
  exists kf. split; [reflexivity|].
  apply list_elem_of_In in Hin. by rewrite rank_Permutation in Hin.
Qed.

Lemma length_hits q k flt i : length (hits similarity q k flt i) <= k.
Proof. unfold hits. rewrite length_take. lia. Qed.

Lemma length_hits_matching q k flt i :
  length (hits similarity q k flt i) <= length (matching flt i).
Proof.
  unfold hits. rewrite length_take, length_map, rank_Permutation. lia.
Qed.

(** ** [search_documents] *)

Lemma search_documents_eq query client_id k w :
  search_documents embed similarity query client_id k w =
  (log_embed query w,
   Ok (match embed query with
       | Some q =>
           if storage_up w
           then map to_result (hits similarity q k (client_filter client_id) (index w))
           else []
       | None => []
       end)).
Proof.
  unfold search_documents, try_except, bind.
  rewrite similarity_search_eq.
  destruct (embed query); [destruct (storage_up w)|]; reflexivity.
Qed.

(** C1: whatever the query, the tenant [A] and the bound [k], every
    fragment that [search_documents] returns carries the [client_id]
    [A]; none carries the [client_id] of another tenant [B]. *)
Theorem search_documents_tenant_isolation
  (query : string) (A B : Z) (k : nat) (w w' : World Vec)
  (results : list SearchResult) :
  A <> B ->
  search_documents embed similarity query A k w = (w', Ok results) ->
  Forall (fun r =>
            dict_get "client_id" (sr_metadata r) = Some (PInt A)
            /\ dict_get "client_id" (sr_metadata r) <> Some (PInt B))
         results.
Proof.
  intros HAB. rewrite search_documents_eq. intros [= _ <-].
  apply Forall_forall. intros r Hr.
  assert (HA : dict_get "client_id" (sr_metadata r) = Some (PInt A)).
  { destruct (embed query) as [q|]; [|by apply elem_of_nil in Hr].
    destruct (storage_up w); [|by apply elem_of_nil in Hr].
    apply list_elem_of_In, in_map_iff in Hr as (doc & <- & Hdoc).
    apply list_elem_of_In, elem_of_hits in Hdoc as (kf & -> & Hkf).
    apply elem_of_matching in Hkf as [Hm _].
    by apply meta_matches_client. }
  split; [exact HA|]. rewrite HA. congruence.
Qed.


(** C3, as amended: [search_documents] has no guard on the empty
    query. It never fails; it sends the empty text to the embedding
    model and returns the hits of the tenant for that vector, at most
    [k] of them (nothing when the embedding or the storage fails). *)
Theorem search_documents_empty_query (A : Z) (k : nat) (w : World Vec) :
  exists w' results,
    search_documents embed similarity "" A k w = (w', Ok results)
    /\ embed_log w' = (embed_log w ++ [""])%list
    /\ index w' = index w
    /\ results =
         match embed "" with
         | Some q =>
             if storage_up w
             then map to_result
                      (hits similarity q k (client_filter A) (index w))
             else []
         | None => []
         end.
Proof.
  eexists _, _. rewrite search_documents_eq.
  split; [reflexivity|]. repeat split.
Qed.

(** ** [add_documents] *)

Lemma set_uuid_next_id (w : World Vec) : set_uuid_next (uuid_next w) w = w.
Proof. by destruct w. Qed.

Lemma set_uuid_next_twice n m (w : World Vec) :
  set_uuid_next n (set_uuid_next m w) = set_uuid_next n w.
Proof. reflexivity. Qed.

(** Drawing identifiers touches nothing but the supply. *)
Lemma build_chunks_frame doc c i chunks (w w' : World Vec) r :
  build_chunks doc c i chunks w = (w', r) ->
  w' = set_uuid_next (uuid_next w') w.
Proof.
  revert i w w' r. induction chunks as [|ch chunks IH]; intros i w w' r; simpl.
  - unfold ret. intros [= <- _]. by rewrite set_uuid_next_id.
  - unfold bind at 1. unfold uuid4 at 1.
    unfold bind.
    destruct (build_chunks doc c (S i) chunks _) as [w1 [a|e]] eqn:E;
      apply IH in E; unfold ret; intros [= <- _];
      rewrite E at 1; reflexivity.
Qed.

Lemma build_documents_frame documents c (w w' : World Vec) r :
  build_documents documents c w = (w', r) ->
  w' = set_uuid_next (uuid_next w') w.
Proof.
  revert w w' r. induction documents as [|doc documents IH]; intros w w' r; simpl.
  - unfold ret. intros [= <- _]. by rewrite set_uuid_next_id.
  - unfold bind at 1. unfold getitem.
    destruct (dict_get "content" doc) as [content|]; unfold ret, raise;
      [|intros [= <- _]; by rewrite set_uuid_next_id].
    unfold bind at 1.
    destruct (split_text content w) as [w1 [chunks|e]] eqn:E1.
    2: { intros [= <- _]. unfold split_text in E1.
         destruct content; unfold raise, lift_result in E1;
           injection E1 as <- _; by rewrite set_uuid_next_id. }
    assert (w1 = w) as ->.
    { unfold split_text in E1.
      destruct content; unfold raise, lift_result in E1; congruence. }
    unfold bind at 1.
    destruct (build_chunks doc c 0 chunks w) as [w2 [here|e]] eqn:E2;
      pose proof (build_chunks_frame _ _ _ _ _ _ _ E2) as F2.
    2: { intros [= <- _]. exact F2. }
    unfold bind.
    destruct (build_documents documents c w2) as [w3 [rest|e]] eqn:E3;
      apply IH in E3; intros [= <- _]; rewrite E3 at 1; rewrite F2;
      reflexivity.
Qed.

Lemma add_documents_eq documents c (w : World Vec) :
  add_documents embed documents c w =
  match build_documents documents c w with
  | (w0, Ok built) =>
      match map snd built with
      | [] => (w0, Ok (map fst built))
      | docs =>
          match vs_add_documents embed docs w0 with
          | (w1, Ok _) => (w1, Ok (map fst built))
          | (w1, Raise e) => (w1, Raise e)
          end
      end
  | (w0, Raise e) => (w0, Raise e)
  end.
Proof.
  unfold add_documents. rewrite try_except_reraise.
  unfold bind at 1.
  destruct (build_documents documents c w) as [w0 [built|e]]; [|reflexivity].
  unfold bind, ret.
  destruct (map snd built); [reflexivity|].
  by destruct (vs_add_documents embed (d :: l) w0) as [w1 [[]|e]].
Qed.



(** An insertion never removes a fragment, and a failed one leaves
    the collection as it was. *)
Lemma vs_insert_raise_index d (w w' : World Vec) e :
  vs_insert embed d w = (w', Raise e) -> index w' = index w.
Proof.
  unfold vs_insert, bind, call_embed.
  destruct (embed (page_content d)); simpl; [|by intros [= <- _]].
  destruct (storage_up w); [|by intros [= <- _]].
  destruct (dict_get "doc_id" (metadata d)) as [[]|]; by intros [= <- _].
Qed.

Lemma vs_insert_ok d (w w' : World Vec) :
  vs_insert embed d w = (w', Ok tt) ->
  exists id v,
    dict_get "doc_id" (metadata d) = Some (PStr id)
    /\ embed (page_content d) = Some v
    /\ storage_up w = true
    /\ index w' =
         <[id := mkFragment (page_content d) (metadata d) v (clock w)]> (index w)
    /\ uuid_next w' = uuid_next w
    /\ storage_up w' = storage_up w.
Proof.
  unfold vs_insert, bind, call_embed.
  destruct (embed (page_content d)) as [v|]; simpl; [|discriminate].
  destruct (storage_up w); [|discriminate].
  destruct (dict_get "doc_id" (metadata d)) as [[| | id | |]|]; try discriminate.
  intros [= <-]. exists id, v. simpl. repeat split.
Qed.






(** ** Fresh identifiers *)

Lemma uuid_of_inj n m : uuid_of n = uuid_of m -> n = m.
Proof.
  unfold uuid_of. intros H.
  apply (inj (String.append _)) in H. by apply (inj pretty) in H.
Qed.

Lemma build_chunks_spec doc c i chunks (w : World Vec) :
  exists built,
    build_chunks doc c i chunks w =
      (set_uuid_next (uuid_next w + length built) w, Ok built)
    /\ well_built c (uuid_next w) built.
Proof.
  revert i w. induction chunks as [|ch chunks IH]; intros i w; simpl.
  - exists []. unfold ret. rewrite Nat.add_0_r, set_uuid_next_id.
    split; [reflexivity|]. split; [reflexivity|constructor].
  - unfold bind at 1. unfold uuid4 at 1. unfold bind.
    destruct (IH (S i) (set_uuid_next (S (uuid_next w)) w))
      as (built & -> & Hids & Hall).
    exists ((uuid_of (uuid_next w),
             mkDocument ch (chunk_metadata doc c i (uuid_of (uuid_next w))))
              :: built).
    unfold ret. split.
    + simpl. rewrite Nat.add_succ_r. reflexivity.
    + split; simpl.
      * f_equal. exact Hids.
      * constructor; [split; reflexivity | exact Hall].
Qed.

Lemma well_built_app c n built1 built2 :
  well_built c n built1 ->
  well_built c (n + length built1) built2 ->
  well_built c n (built1 ++ built2).
Proof.
  intros [H1 F1] [H2 F2]. split.
  - rewrite map_app, length_app, seq_app, map_app. by rewrite H1, H2.
  - by apply Forall_app.
Qed.

Lemma build_documents_spec documents c (w w' : World Vec) built :
  build_documents documents c w = (w', Ok built) ->
  uuid_next w' = uuid_next w + length built
  /\ well_built c (uuid_next w) built.
Proof.
  revert w w' built.
  induction documents as [|doc documents IH]; intros w w' built; simpl.
  - unfold ret. intros [= <- <-]. simpl.
    split; [lia|]. split; [reflexivity|constructor].
  - unfold bind at 1. unfold getitem.
    destruct (dict_get "content" doc) as [content|]; unfold ret, raise;
      [|discriminate].
    unfold bind at 1.
    destruct (split_text content w) as [w1 [chunks|e]] eqn:E1; [|discriminate].
    assert (w1 = w) as ->.
    { unfold split_text in E1.
      destruct content; unfold raise, lift_result in E1; congruence. }
    unfold bind at 1.
    destruct (build_chunks_spec doc c 0 chunks w) as (here & -> & Hhere).
    unfold bind.
    destruct (build_documents documents c _) as [w3 [rest|e]] eqn:E3;
      [|discriminate].
    apply IH in E3 as [Hn Hrest]. simpl in Hn, Hrest.
    intros [= <- <-]. rewrite length_app. split; [lia|].
    by apply well_built_app.
Qed.

Lemma vs_add_documents_uuid docs (w w' : World Vec) r :
  vs_add_documents embed docs w = (w', r) -> uuid_next w' = uuid_next w.
Proof.
  revert w. induction docs as [|d docs IH]; intros w; simpl.
  - unfold ret. by intros [= <- _].
  - unfold bind.
    destruct (vs_insert embed d w) as [w1 [[]|e]] eqn:E.
    + intros H. apply IH in H. rewrite H.
      by apply vs_insert_ok in E as (? & ? & _ & _ & _ & _ & -> & _).
    + intros [= <- _]. revert E.
      unfold vs_insert, bind, call_embed.
      destruct (embed (page_content d)); simpl; [|by intros [= <- _]].
      destruct (storage_up w); [|by intros [= <- _]].
      destruct (dict_get "doc_id" (metadata d)) as [[]|]; by intros [= <- _].
Qed.

(** The key under which the store files a document. *)
Lemma vs_add_documents_other docs (w w' : World Vec) id :
  vs_add_documents embed docs w = (w', Ok tt) ->
  Forall (fun d => dict_get "doc_id" (metadata d) <> Some (PStr id)) docs ->
  index w' !! id = index w !! id.
Proof.
  revert w. induction docs as [|d docs IH]; intros w; simpl.
  - unfold ret. by intros [= <-].
  - unfold bind.
    destruct (vs_insert embed d w) as [w1 [[]|e]] eqn:E; [|discriminate].
    intros H Hall. apply Forall_cons in Hall as [Hd Hall].
    rewrite (IH _ H Hall).
    apply vs_insert_ok in E as (id' & v & Hid & _ & _ & -> & _).
    apply lookup_insert_ne. congruence.
Qed.

Lemma vs_add_documents_lookup docs (w w' : World Vec) :
  vs_add_documents embed docs w = (w', Ok tt) ->
  NoDup (map (fun d => dict_get "doc_id" (metadata d)) docs) ->
  Forall (fun d => forall id,
            dict_get "doc_id" (metadata d) = Some (PStr id) ->
            exists f, index w' !! id = Some f
                      /\ frag_text f = page_content d
                      /\ frag_meta f = metadata d) docs.
Proof.
  revert w. induction docs as [|d docs IH]; intros w; simpl.
  - constructor.
  - unfold bind.
    destruct (vs_insert embed d w) as [w1 [[]|e]] eqn:E; [|discriminate].
    intros H Hnd. apply NoDup_cons in Hnd as [Hnotin Hnd].
    constructor; [|by eapply IH].
    intros id Hid.
    apply vs_insert_ok in E as (id' & v & Hid' & _ & _ & Hi & _).
    assert (id' = id) as -> by congruence.
    rewrite (vs_add_documents_other _ _ _ id H).
    + rewrite Hi, lookup_insert_eq. eauto.
    + apply Forall_forall. intros d' Hd' Heq. apply Hnotin.
      rewrite Hid, <- Heq.
      apply list_elem_of_In.
      apply (in_map (fun d => dict_get "doc_id" (metadata d))).
      by apply list_elem_of_In.
Qed.

Lemma add_documents_ok documents c (w w1 : World Vec) ids :
  add_documents embed documents c w = (w1, Ok ids) ->
  exists w0 built,
    build_documents documents c w = (w0, Ok built)
    /\ ids = map fst built
    /\ uuid_next w1 = uuid_next w0
    /\ (built = [] \/ vs_add_documents embed (map snd built) w0 = (w1, Ok tt)).
Proof.
  rewrite add_documents_eq.
  destruct (build_documents documents c w) as [w0 [built|e]]; [|discriminate].
  destruct (map snd built) as [|d docs] eqn:Hdocs.
  - intros [= <- <-]. exists w0, built. repeat split.
    left. by destruct built.
  - destruct (vs_add_documents embed (d :: docs) w0) as [w2 [[]|e]] eqn:E;
      [|discriminate].
    intros [= <- <-]. exists w0, built. repeat split.
    + by apply vs_add_documents_uuid in E.
    + right. rewrite Hdocs. exact E.
Qed.

Lemma well_built_NoDup c n built : well_built c n built -> NoDup (map fst built).
Proof.
  intros [-> _].
  change (NoDup (uuid_of <$> seq n (length built))).
  apply NoDup_fmap_2; [|apply NoDup_seq].
  intros a b. apply uuid_of_inj.
Qed.

Lemma well_built_elem c n built id :
  well_built c n built -> id ∈ map fst built ->
  exists m, id = uuid_of m /\ n <= m < n + length built.
Proof.
  intros [-> _] H. apply list_elem_of_In, in_map_iff in H as (m & <- & Hm).
  apply in_seq in Hm. eauto.
Qed.

(** C10: every chunk that [add_documents] stores carries the
    [client_id] of the call and a [doc_id] drawn for it alone; the
    identifiers of one call are pairwise distinct, and a second call
    with the same input draws identifiers that the first did not. *)
Theorem add_documents_fresh_ids
  (documents : list dict) (c : Z) (w w1 : World Vec) (ids1 : list string) :
  add_documents embed documents c w = (w1, Ok ids1) ->
  NoDup ids1
  /\ Forall (fun id => exists f,
               index w1 !! id = Some f
               /\ dict_get "client_id" (frag_meta f) = Some (PInt c)
               /\ dict_get "doc_id" (frag_meta f) = Some (PStr id)) ids1
  /\ (forall w2 ids2,
        add_documents embed documents c w1 = (w2, Ok ids2) ->
        Forall (fun id => id ∉ ids2) ids1).
Proof.
  intros H.
  apply add_documents_ok in H as (w0 & built & Hb & -> & Hn & Hstore).
  apply build_documents_spec in Hb as [Hn0 Hwb].
  pose proof (well_built_NoDup _ _ _ Hwb) as Hnd.
  split; [exact Hnd|]. split.
  - destruct Hstore as [-> | Hstore]; [constructor|].
    apply vs_add_documents_lookup in Hstore.
    + destruct Hwb as [_ Hall].
      apply Forall_forall. intros id Hid.
      apply list_elem_of_In, in_map_iff in Hid as ([id' doc] & <- & Hin).
      apply list_elem_of_In in Hin.
      rewrite Forall_forall in Hall. destruct (Hall _ Hin) as [Hc Hd].
      rewrite Forall_forall in Hstore.
      destruct (Hstore doc) with (id := id') as (f & Hf & _ & Hmeta).
      * apply list_elem_of_In. apply (in_map snd _ (id', doc)).
        by apply list_elem_of_In.
      * exact Hd.
      * exists f. simpl in *. rewrite Hmeta. auto.
    + replace (map (fun d => dict_get "doc_id" (metadata d)) (map snd built))
        with (map (fun id => Some (PStr id)) (map fst built)).
      * change (NoDup ((fun id => Some (PStr id)) <$> map fst built)).
        apply NoDup_fmap_2; [|exact Hnd].
        intros a b. congruence.
      * destruct Hwb as [_ Hall]. rewrite !map_map.
        apply map_ext_in. intros p Hp. apply list_elem_of_In in Hp.
        rewrite Forall_forall in Hall. symmetry. by apply Hall.
  - intros w2 ids2 H2.
    apply add_documents_ok in H2 as (w0' & built' & Hb' & -> & _ & _).
    apply build_documents_spec in Hb' as [_ Hwb'].
    apply Forall_forall. intros id Hid Hid'.
    destruct (well_built_elem _ _ _ _ Hwb Hid) as (m & -> & Hm).
    destruct (well_built_elem _ _ _ _ Hwb' Hid') as (m' & Heq & Hm').
    apply uuid_of_inj in Heq. lia.
Qed.


(** ** [query] *)

Lemma query_body_uninitialised q c (w : World Vec) :
  qa_chain w = false ->
  query_body embed similarity llm q c w =
  (w, Raise (ValueError "QA chain not initialized. Call setup_qa_chain first.")).
Proof.
  intros H. unfold query_body, bind, get_qa_chain. by rewrite H.
Qed.

Lemma query_body_question q c (w w' : World Vec) a :
  query_body embed similarity llm q c w = (w', Ok a) -> question a = q.
Proof.
  unfold query_body. intros H.
  apply bind_ok in H as (w1 & chain & _ & H).
  destruct (negb chain); [discriminate|].
  apply bind_ok in H as (w2 & [] & _ & H).
  apply bind_ok in H as (w3 & res & _ & H).
  unfold ret in H. by injection H as _ <-.
Qed.

(** [setup_qa_chain] always raises, and [self.qa_chain] stays unset. *)
Lemma setup_qa_chain_fails key (w : World Vec) :
  setup_qa_chain key w = (w, Raise (NameError "client_id")).
Proof. reflexivity. Qed.

(** C8: [query] is total. It never raises: it returns a dictionary
    that echoes the question, and when its body fails with [e], among
    others because the chain was never set up, the answer holds the
    text of [e] and the sources are empty. *)
Theorem query_never_raises (q : string) (c : Z) (w : World Vec) :
  exists w' a,
    query embed similarity llm q c w = (w', Ok a)
    /\ question a = q
    /\ (forall w1 e,
          query_body embed similarity llm q c w = (w1, Raise e) ->
          w' = w1
          /\ a = mkAnswer ("Error processing query: " +:+ exn_str e) [] q)
    /\ (qa_chain w = false ->
        a = mkAnswer
              "Error processing query: QA chain not initialized. Call setup_qa_chain first."
              [] q).
Proof.
  unfold query, try_except.
  destruct (query_body embed similarity llm q c w) as [w1 [a|e]] eqn:E.
  - exists w1, a. split; [reflexivity|]. split; [|split].
    + by eapply query_body_question.
    + discriminate.
    + intros H. rewrite (query_body_uninitialised _ _ _ H) in E. discriminate.
  - eexists _, _. unfold ret. split; [reflexivity|]. split; [reflexivity|]. split.
    + intros w2 e2 [= <- <-]. split; reflexivity.
    + intros H. rewrite (query_body_uninitialised _ _ _ H) in E.
      injection E as <- <-. reflexivity.
Qed.

(** ** Deletion *)

Lemma delete_keys_delete k ids (i : gmap string (Fragment Vec)) :
  delete k (delete_keys ids i) = delete_keys ids (delete k i).
Proof.
  induction ids as [|id ids IH]; simpl; [reflexivity|].
  destruct id; try exact IH.
  by rewrite delete_delete, IH.
Qed.

Lemma delete_keys_twice ids (i : gmap string (Fragment Vec)) :
  delete_keys ids (delete_keys ids i) = delete_keys ids i.
Proof.
  induction ids as [|id ids IH]; simpl; [reflexivity|].
  destruct id; try exact IH.
  by rewrite <- delete_keys_delete, delete_delete_eq, IH.
Qed.

Lemma delete_keys_absent ids (i : gmap string (Fragment Vec)) :
  (forall id, PStr id ∈ ids -> i !! id = None) ->
  delete_keys ids i = i.
Proof.
  induction ids as [|id ids IH]; simpl; [reflexivity|].
  intros H.
  rewrite IH by (intros k Hk; apply H; by right).
  destruct id; try reflexivity.
  apply delete_id, H. by left.
Qed.

Lemma set_index_id (w : World Vec) : set_index (index w) w = w.
Proof. by destruct w. Qed.

(** C7: deleting a set of fragment ids twice leaves the collection as
    deleting it once does, with the same outcome; and deleting ids that
    are not in the collection succeeds and changes nothing. *)
Theorem vs_delete_idempotent
  (ids : list pyval) (w w1 : World Vec) (r : result unit) :
  vs_delete ids w = (w1, r) ->
  vs_delete ids w1 = (w1, r)
  /\ (storage_up w = true ->
      (forall id, PStr id ∈ ids -> index w !! id = None) ->
      w1 = w /\ r = Ok tt).
Proof.
  unfold vs_delete. destruct (storage_up w) eqn:Hup.
  - intros [= <- <-]. simpl. rewrite Hup. split.
    + unfold set_index. simpl. by rewrite delete_keys_twice.
    + intros _ Habs. rewrite (delete_keys_absent _ _ Habs).
      by rewrite set_index_id.
  - intros [= <- <-]. rewrite Hup. split; [reflexivity|discriminate].
Qed.


(** Removing one key removes at most one matching fragment. *)
Lemma matching_delete flt k (i : gmap string (Fragment Vec)) :
  length (matching flt i) <= S (length (matching flt (delete k i))).
Proof.
  unfold matching.
  destruct (i !! k) as [x|] eqn:E.
  - rewrite <- (map_to_list_delete i k x E).
    rewrite filter_cons. case_decide; simpl; lia.
  - rewrite (delete_id _ _ E). lia.
Qed.

Lemma matching_delete_keys flt ids (i : gmap string (Fragment Vec)) :
  length (matching flt i)
  <= length ids + length (matching flt (delete_keys ids i)).
Proof.
  induction ids as [|id ids IH]; simpl; [lia|].
  destruct id; try lia.
  pose proof (matching_delete flt s (delete_keys ids i)). lia.
Qed.

Lemma length_result_doc_ids results :
  length (result_doc_ids results) <= length results.
Proof.
  unfold result_doc_ids. rewrite length_map. apply length_filter.
Qed.

Lemma delete_client_documents_eq c (w : World Vec) :
  delete_client_documents embed similarity c w =
  match embed "" with
  | Some q =>
      if storage_up w
      then (set_index
              (delete_keys
                 (result_doc_ids (hits similarity q 1000 (client_filter c)
                                       (index w)))
                 (index w))
              (log_embed "" w), Ok true)
      else (log_embed "" w, Ok false)
  | None => (log_embed "" w, Ok false)
  end.
Proof.
  unfold delete_client_documents, try_except. unfold bind at 1.
  rewrite similarity_search_eq.
  destruct (embed "") as [q|]; [|reflexivity].
  destruct (storage_up w) eqn:Hup; [|reflexivity].
  unfold bind, ret.
  destruct (result_doc_ids _) as [|id ids] eqn:Hids.
  - reflexivity.
  - unfold vs_delete. simpl. rewrite Hup. reflexivity.
Qed.

(** ** Enumeration by similarity search *)

Lemma dict_get_cons k k' v (d : dict) :
  dict_get k ((k', v) :: d) = if String.eqb k k' then Some v else dict_get k d.
Proof. reflexivity. Qed.

Lemma append_chunk_cons ch k v (g : dict) :
  append_chunk ch ((k, v) :: g) =
  if String.eqb k "chunks"
  then (k, match v with
           | PList l => PList (l ++ [ch])%list
           | _ => v
           end) :: g
  else (k, v) :: append_chunk ch g.
Proof. reflexivity. Qed.

Lemma chunks_of_append_chunk ch g :
  chunks_of (append_chunk ch g) <= S (chunks_of g).
Proof.
  unfold chunks_of.
  induction g as [|[k v] g IH]; [simpl; lia|].
  rewrite append_chunk_cons, (dict_get_cons _ k v g).
  rewrite (String.eqb_sym "chunks" k).
  destruct (String.eqb k "chunks") eqn:E.
  - rewrite dict_get_cons, (String.eqb_sym "chunks" k), E.
    destruct v; try lia. rewrite length_app. simpl. lia.
  - rewrite dict_get_cons, (String.eqb_sym "chunks" k), E. exact IH.
Qed.

Lemma total_chunks_sources_append k ch (srcs : list (pyval * dict)) :
  total_chunks (map snd (sources_append k ch srcs))
  <= S (total_chunks (map snd srcs)).
Proof.
  induction srcs as [|[k' g] srcs IH]; simpl; [lia|].
  destruct (key_eqb k k'); simpl.
  - pose proof (chunks_of_append_chunk ch g). lia.
  - lia.
Qed.

Lemma total_chunks_app l1 l2 :
  total_chunks (l1 ++ l2) = total_chunks l1 + total_chunks l2.
Proof. induction l1 as [|g l1 IH]; simpl; lia. Qed.

Lemma group_step_total srcs doc srcs' :
  group_step srcs doc = Ok srcs' ->
  total_chunks (map snd srcs') <= S (total_chunks (map snd srcs)).
Proof.
  unfold group_step.
  destruct (hashable _); [|discriminate].
  intros [= <-].
  etransitivity; [apply total_chunks_sources_append|].
  destruct (sources_mem _ srcs); [lia|].
  rewrite map_app, total_chunks_app. simpl. unfold chunks_of. simpl. lia.
Qed.

Lemma group_by_source_total results srcs srcs' :
  group_by_source srcs results = Ok srcs' ->
  total_chunks (map snd srcs')
  <= total_chunks (map snd srcs) + length results.
Proof.
  revert srcs. induction results as [|doc results IH]; intros srcs; simpl.
  - intros [= <-]. lia.
  - destruct (group_step srcs doc) as [srcs1|e] eqn:E; [|discriminate].
    intros H. apply IH in H. apply group_step_total in E. lia.
Qed.

(** C9: one call of [delete_client_documents] sees the tenant through
    a search capped at [k = 1000]: it removes at most 1000 fragments,
    so a tenant that holds more keeps some of them, whatever the call
    returns; [get_client_documents] lists at most 1000 chunks for the
    same reason. *)
Theorem enumeration_capped_at_1000
  (c : Z) (w w' : World Vec) (b : bool) :
  delete_client_documents embed similarity c w = (w', Ok b) ->
  count c w <= count c w' + 1000
  /\ (1000 < count c w -> 0 < count c w')
  /\ (forall w2 groups,
        get_client_documents embed similarity c w = (w2, Ok groups) ->
        total_chunks groups <= 1000).
Proof.
  intros H.
  assert (Hcap : count c w <= count c w' + 1000).
  { rewrite delete_client_documents_eq in H. unfold count.
    destruct (embed "") as [q|]; [|injection H as <- _; simpl; lia].
    destruct (storage_up w); [|injection H as <- _; simpl; lia].
    injection H as <- _. simpl.
    pose proof (matching_delete_keys (client_filter c)
                  (result_doc_ids
                     (hits similarity q 1000 (client_filter c) (index w)))
                  (index w)).
    pose proof (length_result_doc_ids
                  (hits similarity q 1000 (client_filter c) (index w))).
    pose proof (length_hits q 1000 (client_filter c) (index w)).
    unfold client_filter in *. lia. }
  split; [exact Hcap|]. split; [lia|].
  intros w2 groups. unfold get_client_documents, try_except.
  unfold bind at 1. rewrite similarity_search_eq.
  destruct (embed "") as [q|]; [|intros [= _ <-]; simpl; lia].
  destruct (storage_up w); [|intros [= _ <-]; simpl; lia].
  unfold bind, lift_result, ret.
  destruct (group_by_source [] _) as [srcs|e] eqn:E; [|intros [= _ <-]; simpl; lia].
  intros [= _ <-]. apply group_by_source_total in E. simpl in E.
  pose proof (length_hits q 1000 (client_filter c) (index w)). lia.
Qed.


(** ** Reindexing *)

(** The groups of [get_client_documents] keep the text of a source
    under ['chunks']: they have no ['content'] entry. *)
Lemma append_chunk_content ch (g : dict) :
  dict_get "content" (append_chunk ch g) = dict_get "content" g.
Proof.
  induction g as [|[k v] g IH]; [reflexivity|].
  rewrite append_chunk_cons.
  destruct (String.eqb k "chunks") eqn:E.
  - apply String.eqb_eq in E as ->. reflexivity.
  - rewrite !dict_get_cons, IH. reflexivity.
Qed.

Lemma sources_append_content k ch (srcs : list (pyval * dict)) :
  Forall (fun kg => dict_get "content" (snd kg) = None) srcs ->
  Forall (fun kg => dict_get "content" (snd kg) = None)
         (sources_append k ch srcs).
Proof.
  induction 1 as [|[k' g] srcs Hg Hall IH]; simpl; [constructor|].
  destruct (key_eqb k k'); constructor; try assumption.
  simpl in *. by rewrite append_chunk_content.
Qed.

Lemma group_by_source_content results srcs srcs' :
  group_by_source srcs results = Ok srcs' ->
  Forall (fun kg => dict_get "content" (snd kg) = None) srcs ->
  Forall (fun kg => dict_get "content" (snd kg) = None) srcs'.
Proof.
  revert srcs. induction results as [|doc results IH]; intros srcs; simpl.
  - by intros [= <-].
  - destruct (group_step srcs doc) as [srcs1|e] eqn:E; [|discriminate].
    intros H Hall. apply (IH _ H).
    unfold group_step in E. destruct (hashable _); [|discriminate].
    injection E as <-. apply sources_append_content.
    destruct (sources_mem _ srcs); [exact Hall|].
    apply Forall_app. split; [exact Hall|]. by repeat constructor.
Qed.

Lemma get_client_documents_total c (w : World Vec) :
  exists groups,
    get_client_documents embed similarity c w = (log_embed "" w, Ok groups)
    /\ Forall (fun g => dict_get "content" g = None) groups.
Proof.
  unfold get_client_documents, try_except. unfold bind at 1.
  rewrite similarity_search_eq.
  destruct (embed "") as [q|]; [|by exists []].
  destruct (storage_up w); [|by exists []].
  unfold bind, lift_result, ret.
  destruct (group_by_source [] _) as [srcs|e] eqn:E; [|by exists []].
  exists (map snd srcs). split; [reflexivity|].
  apply group_by_source_content in E; [|constructor].
  apply Forall_forall. intros g Hg.
  apply list_elem_of_In, in_map_iff in Hg as (kg & <- & Hkg).
  rewrite Forall_forall in E. apply E. by apply list_elem_of_In.
Qed.

(** A document without content has no chunk: nothing is drawn,
    embedded or stored for it. *)
Lemma add_documents_no_content g c (w : World Vec) :
  dict_get "content" g = None ->
  add_documents embed [doc_data_of g] c w = (w, Ok []).
Proof.
  intros H. rewrite add_documents_eq.
  unfold build_documents, doc_data_of, dict_get_default.
  rewrite H. reflexivity.
Qed.

Lemma readd_documents_nothing groups c (w : World Vec) :
  Forall (fun g => dict_get "content" g = None) groups ->
  readd_documents embed groups c w = (w, Ok tt).
Proof.
  induction 1 as [|g groups Hg Hall IH]; simpl; [reflexivity|].
  unfold bind. by rewrite (add_documents_no_content _ _ _ Hg).
Qed.

(** Whatever the tenant holds, the task ends in the state that
    [delete_client_documents] leaves: the loop that should add the
    documents again reads ['content'] from groups that have none. *)
Lemma reindex_is_delete c (w : World Vec) :
  truthy (PInt c) = true ->
  exists groups w2 b,
    get_client_documents embed similarity c w = (log_embed "" w, Ok groups)
    /\ delete_client_documents embed similarity c (log_embed "" w)
       = (w2, Ok b)
    /\ reindex_documents_task embed similarity (Some c) w =
         (w2, Ok [ ("status", PStr "completed");
                   ("client_id", PInt c);
                   ("documents_reindexed",
                    PInt (Z.of_nat (length groups))) ]).
Proof.
  intros Hc.
  destruct (get_client_documents_total c w) as (groups & Hget & Hall).
  destruct (delete_client_documents embed similarity c (log_embed "" w))
    as [w2 r] eqn:Hdel.
  assert (exists b, r = Ok b) as [b ->].
  { rewrite delete_client_documents_eq in Hdel.
    destruct (embed ""); [destruct (storage_up _)|];
      injection Hdel as _ <-; eauto. }
  exists groups, w2, b. split; [exact Hget|]. split; [reflexivity|].
  unfold reindex_documents_task, try_except. rewrite Hc.
  unfold bind at 1. rewrite Hget.
  unfold bind at 1. rewrite Hdel.
  unfold bind. rewrite (readd_documents_nothing _ _ _ Hall).
  reflexivity.
Qed.


(** ** Deleting a tenant that fits in one search *)

Lemma lookup_delete_keys_Some ids (i : gmap string (Fragment Vec)) k f :
  delete_keys ids i !! k = Some f ->
  i !! k = Some f /\ PStr k ∉ ids.
Proof.
  induction ids as [|id ids IH]; simpl.
  - intros H. split; [exact H|]. apply not_elem_of_nil.
  - intros H.
    assert (Hrest : delete_keys ids i !! k = Some f /\ id <> PStr k).
    { destruct id; try (split; [exact H|discriminate]).
      apply lookup_delete_Some in H as [Hne H].
      split; [exact H|]. congruence. }
    destruct Hrest as [Hk Hne]. destruct (IH Hk) as [Hi Hnotin].
    split; [exact Hi|].
    intros Hin. apply elem_of_cons in Hin as [Heq|Hin]; [congruence|auto].
Qed.

Lemma matching_elem_of flt (i : gmap string (Fragment Vec)) k f :
  i !! k = Some f -> meta_matches flt (frag_meta f) = true ->
  (k, f) ∈ matching flt i.
Proof.
  intros Hi Hm. unfold matching. apply list_elem_of_filter. split.
  - simpl. by apply Is_true_eq_left.
  - by apply elem_of_map_to_list.
Qed.

(** Once every matching fragment is on the list of ids to delete,
    none is left. *)
Lemma matching_delete_keys_all flt ids (i : gmap string (Fragment Vec)) :
  (forall kf, kf ∈ matching flt i -> PStr (fst kf) ∈ ids) ->
  matching flt (delete_keys ids i) = [].
Proof.
  intros Hall.
  destruct (matching flt (delete_keys ids i)) as [|[k f] l] eqn:E;
    [reflexivity|exfalso].
  assert (Hin : (k, f) ∈ matching flt (delete_keys ids i))
    by (rewrite E; left).
  apply elem_of_matching in Hin as [Hm Hk]. simpl in *.
  apply lookup_delete_keys_Some in Hk as [Hi Hnotin].
  apply Hnotin. apply (Hall (k, f)). by apply matching_elem_of.
Qed.

Lemma index_wf_truthy (i : gmap string (Fragment Vec)) id f :
  index_wf i -> i !! id = Some f ->
  dict_get_none "doc_id" (frag_meta f) = PStr id
  /\ truthy (PStr id) = true.
Proof.
  intros Hwf Hi. destruct (Hwf _ _ Hi) as [Hd Hne].
  unfold dict_get_none, dict_get_default. rewrite Hd.
  split; [reflexivity|]. simpl.
  destruct (String.eqb_spec id ""); [contradiction|reflexivity].
Qed.

(** In a well-formed collection the ids read off the search results
    are the keys of the fragments found. *)
Lemma result_doc_ids_keys (i : gmap string (Fragment Vec)) l :
  index_wf i ->
  Forall (fun kf => i !! fst kf = Some (snd kf)) l ->
  result_doc_ids (map to_document l) = map (fun kf => PStr (fst kf)) l.
Proof.
  intros Hwf. unfold result_doc_ids.
  induction 1 as [|[k f] l Hk Hall IH]; [reflexivity|].
  simpl in Hk.
  destruct (index_wf_truthy _ _ _ Hwf Hk) as [Hd Ht].
  rewrite map_cons, filter_cons.
  change (metadata (to_document (k, f))) with (frag_meta f).
  rewrite Hd, Ht. simpl.
  change (metadata (to_document (k, f))) with (frag_meta f).
  rewrite Hd. f_equal. exact IH.
Qed.

(** A tenant of at most 1000 fragments is emptied by one call. *)
Lemma delete_client_documents_all c (w : World Vec) q :
  index_wf (index w) ->
  count c w <= 1000 ->
  embed "" = Some q ->
  storage_up w = true ->
  exists w',
    delete_client_documents embed similarity c w = (w', Ok true)
    /\ count c w' = 0.
Proof.
  intros Hwf Hcount Hq Hup.
  rewrite delete_client_documents_eq, Hq, Hup.
  eexists. split; [reflexivity|].
  unfold count. simpl. unfold hits.
  rewrite take_ge
    by (rewrite length_map, rank_Permutation; exact Hcount).
  rewrite (result_doc_ids_keys (index w)); [|exact Hwf|].
  - rewrite matching_delete_keys_all; [reflexivity|].
    intros kf Hkf. apply list_elem_of_In.
    apply (in_map (fun kf => PStr (fst kf))).
    apply list_elem_of_In. by rewrite rank_Permutation.
  - apply Forall_forall. intros kf Hkf. rewrite rank_Permutation in Hkf.
    by apply elem_of_matching in Hkf as [_ Hk].
Qed.

(** No fragment of the tenant: the call succeeds and deletes nothing. *)
Lemma delete_client_documents_none c (w : World Vec) q :
  count c w = 0 ->
  embed "" = Some q ->
  storage_up w = true ->
  exists w',
    delete_client_documents embed similarity c w = (w', Ok true)
    /\ index w' = index w.
Proof.
  intros Hcount Hq Hup.
  rewrite delete_client_documents_eq, Hq, Hup.
  eexists. split; [reflexivity|]. simpl.
  unfold count in Hcount. apply nil_length_inv in Hcount.
  unfold hits. unfold client_filter. rewrite Hcount. reflexivity.
Qed.

(** For such a tenant a second call changes nothing. *)
Lemma delete_client_documents_twice c (w : World Vec) q :
  index_wf (index w) ->
  count c w <= 1000 ->
  embed "" = Some q ->
  storage_up w = true ->
  exists w1 w2,
    delete_client_documents embed similarity c w = (w1, Ok true)
    /\ delete_client_documents embed similarity c w1 = (w2, Ok true)
    /\ index w2 = index w1.
Proof.
  intros Hwf Hcount Hq Hup.
  destruct (delete_client_documents_all c w q Hwf Hcount Hq Hup)
    as (w1 & H1 & Hzero).
  assert (Hup1 : storage_up w1 = true).
  { rewrite delete_client_documents_eq, Hq, Hup in H1.
    by injection H1 as <-. }
  destruct (delete_client_documents_none c w1 q Hzero Hq Hup1)
    as (w2 & H2 & Hsame).
  eauto.
Qed.

(** With the storage and the embedding model at hand, the task leaves
    a tenant of at most 1000 fragments with none. *)
Lemma reindex_empties_tenant c (w : World Vec) q :
  truthy (PInt c) = true ->
  index_wf (index w) ->
  count c w <= 1000 ->
  embed "" = Some q ->
  storage_up w = true ->
  exists w' report,
    reindex_documents_task embed similarity (Some c) w = (w', Ok report)
    /\ dict_get "status" report = Some (PStr "completed")
    /\ count c w' = 0.
Proof.
  intros Hc Hwf Hcount Hq Hup.
  destruct (reindex_is_delete c w Hc) as (groups & w2 & b & _ & Hdel & Htask).
  destruct (delete_client_documents_all c (log_embed "" w) q)
    as (w3 & Hdel3 & Hzero); try assumption.
  rewrite Hdel in Hdel3. injection Hdel3 as <- _.
  eexists _, _. split; [exact Htask|]. split; [reflexivity|exact Hzero].
Qed.


(** ** The collections the service builds are well formed *)

Lemma uuid_of_nonempty n : uuid_of n <> "".
Proof. unfold uuid_of. cbn. discriminate. Qed.

Lemma index_wf_empty : index_wf (∅ : gmap string (Fragment Vec)).
Proof. intros id f H. by rewrite lookup_empty in H. Qed.

Lemma vs_insert_wf d (w w' : World Vec) r :
  index_wf (index w) ->
  (forall id, dict_get "doc_id" (metadata d) = Some (PStr id) -> id <> "") ->
  vs_insert embed d w = (w', r) ->
  index_wf (index w').
Proof.
  intros Hwf Hd H. destruct r as [[]|e].
  - apply vs_insert_ok in H as (id & v & Hid & _ & _ & -> & _).
    intros id' f. rewrite lookup_insert. case_decide as Heq.
    + subst id'. intros [= <-]. simpl. split; [exact Hid|by apply Hd].
    + apply Hwf.
  - apply vs_insert_raise_index in H. by rewrite H.
Qed.

Lemma vs_add_documents_wf docs (w w' : World Vec) r :
  index_wf (index w) ->
  Forall (fun d => forall id,
            dict_get "doc_id" (metadata d) = Some (PStr id) -> id <> "")
         docs ->
  vs_add_documents embed docs w = (w', r) ->
  index_wf (index w').
Proof.
  intros Hwf Hall. revert w Hwf.
  induction Hall as [|d docs Hd Hall IH]; intros w Hwf; simpl.
  - unfold ret. by intros [= <- _].
  - unfold bind.
    destruct (vs_insert embed d w) as [w1 [[]|e]] eqn:E.
    + apply IH. by eapply vs_insert_wf.
    + intros [= <- _]. by eapply vs_insert_wf.
Qed.

Lemma add_documents_wf documents c (w w' : World Vec) r :
  index_wf (index w) ->
  add_documents embed documents c w = (w', r) ->
  index_wf (index w').
Proof.
  intros Hwf. rewrite add_documents_eq.
  destruct (build_documents documents c w) as [w0 [built|e]] eqn:Hb;
    pose proof (build_documents_frame _ _ _ _ _ Hb) as F.
  2: { intros [= <- _]. by rewrite F. }
  assert (Hwf0 : index_wf (index w0)) by (by rewrite F).
  apply build_documents_spec in Hb as [_ Hwb].
  assert (Hne : Forall (fun d => forall id,
                          dict_get "doc_id" (metadata d) = Some (PStr id) ->
                          id <> "") (map snd built)).
  { apply Forall_forall. intros d Hd.
    apply list_elem_of_In, in_map_iff in Hd as ([id0 d0] & <- & Hin).
    apply list_elem_of_In in Hin.
    assert (Hid0 : id0 ∈ map fst built).
    { apply list_elem_of_In. apply (in_map fst _ (id0, d0)).
      by apply list_elem_of_In. }
    destruct (well_built_elem _ _ _ _ Hwb Hid0) as (m & -> & _).
    destruct Hwb as [_ Hall]. rewrite Forall_forall in Hall.
    destruct (Hall _ Hin) as [_ Hdoc]. simpl in *.
    intros id Hid. rewrite Hdoc in Hid. injection Hid as <-.
    apply uuid_of_nonempty. }
  destruct (map snd built) as [|d docs] eqn:Hdocs.
  - by intros [= <- _].
  - destruct (vs_add_documents embed (d :: docs) w0) as [w1 r1] eqn:E.
    apply vs_add_documents_wf in E; [|assumption..].
    destruct r1 as [[]|e]; by intros [= <- _].
Qed.

Lemma delete_keys_wf ids (i : gmap string (Fragment Vec)) :
  index_wf i -> index_wf (delete_keys ids i).
Proof.
  intros Hwf id f H. apply lookup_delete_keys_Some in H as [H _].
  by apply Hwf.
Qed.

Lemma delete_client_documents_wf c (w w' : World Vec) r :
  index_wf (index w) ->
  delete_client_documents embed similarity c w = (w', r) ->
  index_wf (index w').
Proof.
  intros Hwf. rewrite delete_client_documents_eq.
  destruct (embed ""); [destruct (storage_up w)|]; intros [= <- _]; simpl;
    try assumption.
  by apply delete_keys_wf.
Qed.

End Properties.

(** * The scenarios, run *)

(** C1 on a collection shared by the tenants 7 and 8. *)
Lemma search_documents_tenant_isolation_witness :
  Forall (fun r =>
            dict_get "client_id" (sr_metadata r) = Some (PInt 7)
            /\ dict_get "client_id" (sr_metadata r) <> Some (PInt 8))
         (returned (search_documents Scenario.embed_len Scenario.near
                                     "notes" 7%Z 5 Scenario.shared)).
Proof.
  apply (search_documents_tenant_isolation
           Scenario.embed_len Scenario.near "notes" 7%Z 8%Z 5 Scenario.shared
           (fst (search_documents Scenario.embed_len Scenario.near
                                  "notes" 7%Z 5 Scenario.shared))).
  - lia.
  - vm_compute. reflexivity.
Defined.



(** C3, as stated, fails on the collection of tenant 7: the empty
    query raises no error, it is embedded and answered with the three
    fragments of the tenant. *)
Lemma empty_query_is_searched :
  exists w' results,
    search_documents Scenario.embed_len Scenario.near "" 7%Z 5
                     Scenario.ingested
    = (w', Ok results)
    /\ length results = 3
    /\ last (embed_log w') = Some "".
Proof.
  eexists _, _. split; [vm_compute; reflexivity|].
  split; vm_compute; reflexivity.
Qed.




Lemma vs_delete_idempotent_witness :
  vs_delete [PStr "uuid4-0"; PStr "no such fragment"]
            (fst (vs_delete [PStr "uuid4-0"; PStr "no such fragment"]
                            Scenario.ingested))
  = (fst (vs_delete [PStr "uuid4-0"; PStr "no such fragment"]
                    Scenario.ingested), Ok tt)
  /\ (storage_up Scenario.ingested = true ->
      (forall id,
         PStr id ∈ [PStr "uuid4-0"; PStr "no such fragment"] ->
         index Scenario.ingested !! id = None) ->
      fst (vs_delete [PStr "uuid4-0"; PStr "no such fragment"]
                     Scenario.ingested) = Scenario.ingested
      /\ Ok tt = Ok tt).
Proof.
  apply (vs_delete_idempotent
           [PStr "uuid4-0"; PStr "no such fragment"] Scenario.ingested).
  vm_compute. reflexivity.
Defined.

Lemma enumeration_capped_at_1000_witness :
  count 7 Scenario.crowded <=
    count 7 (fst (delete_client_documents Scenario.embed_len Scenario.near
                                          7%Z Scenario.crowded)) + 1000
  /\ (1000 < count 7 Scenario.crowded ->
      0 < count 7 (fst (delete_client_documents
                          Scenario.embed_len Scenario.near
                          7%Z Scenario.crowded)))
  /\ (forall w2 groups,
        get_client_documents Scenario.embed_len Scenario.near 7%Z
                             Scenario.crowded = (w2, Ok groups) ->
        total_chunks groups <= 1000).
Proof.
  apply (enumeration_capped_at_1000
           Scenario.embed_len Scenario.near 7%Z Scenario.crowded
           (fst (delete_client_documents Scenario.embed_len Scenario.near
                                         7%Z Scenario.crowded))
           true).
  vm_compute. reflexivity.
Defined.

Lemma add_documents_fresh_ids_witness :
  NoDup ["uuid4-0"; "uuid4-1"; "uuid4-2"]
  /\ Forall (fun id => exists f,
               index Scenario.ingested !! id = Some f
               /\ dict_get "client_id" (frag_meta f) = Some (PInt 7)
               /\ dict_get "doc_id" (frag_meta f) = Some (PStr id))
            ["uuid4-0"; "uuid4-1"; "uuid4-2"]
  /\ (forall w2 ids2,
        add_documents Scenario.embed_len [Scenario.doc2500] 7%Z
                      Scenario.ingested = (w2, Ok ids2) ->
        Forall (fun id => id ∉ ids2) ["uuid4-0"; "uuid4-1"; "uuid4-2"]).
Proof.
  apply (add_documents_fresh_ids
           Scenario.embed_len [Scenario.doc2500] 7%Z Scenario.fresh).
  vm_compute. reflexivity.
Defined.

(** ** The other paths of the model, run *)

(** With a chain, [query] answers from the five best fragments of the
    tenant, here its three. *)
Example query_answers_with_chain :
  exists w' a,
    query Scenario.embed_len Scenario.near Scenario.llm_echo
          "what is in the notes" 7%Z Scenario.answering = (w', Ok a)
    /\ answer a = "what is in the notes"
    /\ length (sources a) = 3
    /\ retriever_client w' = Some 7%Z.
Proof.
  eexists _, _. split; [vm_compute; reflexivity|].
  repeat split.
Qed.

(** [get_client_documents] groups the three fragments of tenant 7
    under their one source. *)
Example get_client_documents_groups :
  exists w' group,
    get_client_documents Scenario.embed_len Scenario.near 7%Z
                         Scenario.ingested = (w', Ok [group])
    /\ dict_get "source_id" group = Some (PInt 1)
    /\ dict_get "content" group = None
    /\ chunks_of group = 3.
Proof.
  eexists _, _. split; [vm_compute; reflexivity|].
  repeat split.
Qed.

(** A document without ['content'] makes [add_documents] raise
    [KeyError]. *)
Example add_documents_without_content :
  snd (add_documents Scenario.embed_len [[("title", PStr "untitled")]] 7%Z
                     Scenario.fresh)
  = Raise (KeyError "content").
Proof. reflexivity. Qed.

(** * The service seen from its callers *)

Section ServiceProperties.

Context {Vec : Type}.
Variable embed : string -> option Vec.
Variable similarity : Vec -> Vec -> Z.
Variable llm : string -> list Document -> option string.

(** ** What each method leaves of the state *)

Lemma vs_insert_frame d (w w' : World Vec) r :
  vs_insert embed d w = (w', r) ->
  storage_up w' = storage_up w
  /\ uuid_next w' = uuid_next w
  /\ qa_chain w' = qa_chain w.
Proof.
  unfold vs_insert, bind, call_embed.
  destruct (embed (page_content d)); simpl; [|by intros [= <- _]].
  destruct (storage_up w) eqn:Hup; [|by intros [= <- _]].
  destruct (dict_get "doc_id" (metadata d)) as [[]|]; by intros [= <- _].
Qed.

Lemma vs_add_documents_frame docs (w w' : World Vec) r :
  vs_add_documents embed docs w = (w', r) ->
  storage_up w' = storage_up w
  /\ uuid_next w' = uuid_next w
  /\ qa_chain w' = qa_chain w.
Proof.
  revert w. induction docs as [|d docs IH]; intros w; simpl.
  - unfold ret. by intros [= <- _].
  - unfold bind.
    destruct (vs_insert embed d w) as [w1 [[]|e]] eqn:E;
      apply vs_insert_frame in E as (E1 & E2 & E3).
    + intros H. apply IH in H as (H1 & H2 & H3).
      rewrite H1, H2, H3. auto.
    + by intros [= <- _].
Qed.

(** The supply of identifiers only moves forward. *)
Lemma build_documents_mono documents c (w w' : World Vec) r :
  build_documents documents c w = (w', r) -> uuid_next w <= uuid_next w'.
Proof.
  revert w w' r. induction documents as [|doc documents IH]; intros w w' r; simpl.
  - unfold ret. by intros [= <- _].
  - unfold bind at 1. unfold getitem.
    destruct (dict_get "content" doc) as [content|]; unfold ret, raise;
      [|by intros [= <- _]].
    unfold bind at 1.
    destruct (split_text content w) as [w1 [chunks|e]] eqn:E1.
    2: { intros [= <- _]. unfold split_text in E1.
         destruct content; unfold raise, lift_result in E1;
           by injection E1 as <- _. }
    assert (w1 = w) as ->.
    { unfold split_text in E1.
      destruct content; unfold raise, lift_result in E1; congruence. }
    unfold bind at 1.
    destruct (build_chunks_spec doc c 0 chunks w) as (here & -> & _).
    unfold bind.
    destruct (build_documents documents c _) as [w3 [rest|e]] eqn:E3;
      apply IH in E3; simpl in E3; intros [= <- _]; lia.
Qed.

(** [add_documents] never touches the storage flag or the chain, and
    the supply of identifiers only moves forward. *)
Lemma add_documents_frame documents c (w w' : World Vec) r :
  add_documents embed documents c w = (w', r) ->
  storage_up w' = storage_up w
  /\ qa_chain w' = qa_chain w
  /\ uuid_next w <= uuid_next w'.
Proof.
  rewrite add_documents_eq.
  destruct (build_documents documents c w) as [w0 [built|e]] eqn:Hb;
    pose proof (build_documents_frame _ _ _ _ _ Hb) as F;
    pose proof (build_documents_mono _ _ _ _ _ Hb) as Hmono.
  2: { intros [= <- _]. rewrite F. simpl. auto. }
  assert (F0 : storage_up w0 = storage_up w /\ qa_chain w0 = qa_chain w)
    by (rewrite F; simpl; auto).
  destruct F0 as [F1 F2].
  destruct (map snd built) as [|d docs].
  - intros [= <- _]. auto.
  - destruct (vs_add_documents embed (d :: docs) w0) as [w1 r1] eqn:E.
    apply vs_add_documents_frame in E as (E1 & E2 & E3).
    destruct r1 as [[]|e]; intros [= <- _];
      rewrite E1, E2, E3, F1, F2; auto.
Qed.

Lemma search_documents_world q c k (w : World Vec) :
  fst (search_documents embed similarity q c k w) = log_embed q w.
Proof. by rewrite search_documents_eq. Qed.

Lemma get_client_documents_world c (w : World Vec) :
  fst (get_client_documents embed similarity c w) = log_embed "" w.
Proof.
  destruct (get_client_documents_total embed similarity c w) as (g & -> & _).
  reflexivity.
Qed.

(** [delete_client_documents] only ever takes fragments away. *)
Lemma delete_client_documents_world c (w : World Vec) :
  exists ids,
    fst (delete_client_documents embed similarity c w)
    = set_index (delete_keys ids (index w)) (log_embed "" w).
Proof.
  rewrite delete_client_documents_eq.
  destruct (embed "") as [q|]; [destruct (storage_up w)|];
    first [ by eexists | by exists [] ].
Qed.

Lemma query_world q c (w : World Vec) :
  index (fst (query embed similarity llm q c w)) = index w
  /\ uuid_next (fst (query embed similarity llm q c w)) = uuid_next w
  /\ storage_up (fst (query embed similarity llm q c w)) = storage_up w
  /\ qa_chain (fst (query embed similarity llm q c w)) = qa_chain w.
Proof.
  unfold query, try_except, query_body, bind, get_qa_chain, set_retriever,
    run_chain, similarity_search, bind, call_embed, ret, raise.
  destruct (qa_chain w) eqn:Hq; simpl; [|by rewrite Hq].
  destruct (embed q) as [v|]; simpl; [|by rewrite Hq].
  destruct (storage_up w); simpl; [|by rewrite Hq].
  destruct (llm q _); simpl; by rewrite Hq.
Qed.

Lemma reindex_documents_task_world client_id (w : World Vec) :
  exists ids report,
    reindex_documents_task embed similarity client_id w
    = (match client_id with
       | Some c =>
           if truthy (PInt c)
           then set_index (delete_keys ids (index w))
                          (log_embed "" (log_embed "" w))
           else w
       | None => w
       end, Ok report)
    /\ dict_get "status" report = Some (PStr "completed").
Proof.
  destruct client_id as [c|]; [|exists []; eexists; split; reflexivity].
  destruct (truthy (PInt c)) eqn:Hc.
  - destruct (reindex_is_delete embed similarity c w Hc)
      as (groups & w2 & b & _ & Hdel & ->).
    destruct (delete_client_documents_world c (log_embed "" w)) as [ids Hids].
    rewrite Hdel in Hids. simpl in Hids. subst w2.
    exists ids. eexists. split; reflexivity.
  - exists []. eexists. unfold reindex_documents_task, try_except.
    rewrite Hc. split; reflexivity.
Qed.

(** ** Searching *)

Lemma meta_matches_client_intro c md :
  dict_get "client_id" md = Some (PInt c) ->
  meta_matches (client_filter c) md = true.
Proof.
  intros H. unfold meta_matches, client_filter. simpl. rewrite H.
  simpl. by rewrite Z.eqb_refl.
Qed.

(** X1: [search_documents] never raises, and it returns at most [k]
    results and at most as many as the tenant has fragments. *)
Theorem search_documents_bounded
  (q : string) (c : Z) (k : nat) (w : World Vec) :
  exists w' results,
    search_documents embed similarity q c k w = (w', Ok results)
    /\ length results <= k
    /\ length results <= count c w.
Proof.
  rewrite search_documents_eq. eexists _, _. split; [reflexivity|].
  destruct (embed q) as [v|]; [|simpl; lia].
  destruct (storage_up w); [|simpl; lia].
  rewrite length_map.
  pose proof (length_hits similarity v k (client_filter c) (index w)).
  pose proof (length_hits_matching similarity v k (client_filter c) (index w)).
  unfold count, client_filter in *. lia.
Qed.

(** When [k] covers the tenant, the hits are all its fragments. *)
Lemma hits_covering v c k (i : gmap string (Fragment Vec)) :
  length (matching (client_filter c) i) <= k ->
  hits similarity v k (client_filter c) i
  = map to_document (rank similarity v (matching (client_filter c) i)).
Proof.
  intros Hk. unfold hits.
  apply take_ge. by rewrite length_map, rank_Permutation.
Qed.

Lemma hits_cover v c k (i : gmap string (Fragment Vec)) id f :
  length (matching (client_filter c) i) <= k ->
  i !! id = Some f ->
  dict_get "client_id" (frag_meta f) = Some (PInt c) ->
  to_document (id, f) ∈ hits similarity v k (client_filter c) i.
Proof.
  intros Hk Hi Hc. rewrite hits_covering by exact Hk.
  apply list_elem_of_In. apply (in_map to_document _ (id, f)).
  apply list_elem_of_In. rewrite rank_Permutation.
  apply matching_elem_of; [exact Hi|].
  by apply meta_matches_client_intro.
Qed.

(** X2: When [k] covers the tenant, and the embedding model and the
    storage answer, [search_documents] returns every fragment of the
    tenant, each once. *)
Theorem search_documents_complete
  (q : string) (v : Vec) (c : Z) (k : nat) (w : World Vec) :
  embed q = Some v ->
  storage_up w = true ->
  count c w <= k ->
  exists w' results,
    search_documents embed similarity q c k w = (w', Ok results)
    /\ length results = count c w
    /\ (forall id f,
          index w !! id = Some f ->
          dict_get "client_id" (frag_meta f) = Some (PInt c) ->
          mkSearchResult (frag_text f) (frag_meta f) 0 ∈ results).
Proof.
  intros Hv Hup Hk. rewrite search_documents_eq, Hv, Hup.
  eexists _, _. split; [reflexivity|]. split.
  - rewrite hits_covering by exact Hk.
    by rewrite !length_map, rank_Permutation.
  - intros id f Hi Hc.
    apply list_elem_of_In.
    apply (in_map to_result _ (to_document (id, f))).
    apply list_elem_of_In. by apply hits_cover.
Qed.

(** ** Adding *)

(** Every identifier that [add_documents] returns names a fragment of
    the collection, which carries the client of the call. *)
Lemma add_documents_stored documents c (w w1 : World Vec) ids :
  add_documents embed documents c w = (w1, Ok ids) ->
  Forall (fun id => exists f,
            index w1 !! id = Some f
            /\ dict_get "client_id" (frag_meta f) = Some (PInt c)
            /\ dict_get "doc_id" (frag_meta f) = Some (PStr id)) ids.
Proof.
  intros H.
  apply add_documents_ok in H as (w0 & built & Hb & -> & Hn & Hstore).
  apply build_documents_spec in Hb as [Hn0 Hwb].
  pose proof (well_built_NoDup _ _ _ Hwb) as Hnd.
  destruct Hstore as [-> | Hstore]; [constructor|].
  apply vs_add_documents_lookup in Hstore.
  - destruct Hwb as [_ Hall].
    apply Forall_forall. intros id Hid.
    apply list_elem_of_In, in_map_iff in Hid as ([id' doc] & <- & Hin).
    apply list_elem_of_In in Hin.
    rewrite Forall_forall in Hall. destruct (Hall _ Hin) as [Hc Hd].
    rewrite Forall_forall in Hstore.
    destruct (Hstore doc) with (id := id') as (f & Hf & _ & Hmeta).
    + apply list_elem_of_In. apply (in_map snd _ (id', doc)).
      by apply list_elem_of_In.
    + exact Hd.
    + exists f. simpl in *. rewrite Hmeta. auto.
  - replace (map (fun d => dict_get "doc_id" (metadata d)) (map snd built))
      with (map (fun id => Some (PStr id)) (map fst built)).
    + change (NoDup ((fun id => Some (PStr id)) <$> map fst built)).
      apply NoDup_fmap_2; [|exact Hnd].
      intros a b. congruence.
    + destruct Hwb as [_ Hall]. rewrite !map_map.
      apply map_ext_in. intros p Hp. apply list_elem_of_In in Hp.
      rewrite Forall_forall in Hall. symmetry. by apply Hall.
Qed.

(** X3: Ingestion, then search: with a [k] that covers the tenant, a search
    of the tenant finds every fragment the call has just stored. *)
Theorem add_then_search_finds
  (documents : list dict) (q : string) (v : Vec) (c : Z) (k : nat)
  (w w1 : World Vec) (ids : list string) :
  add_documents embed documents c w = (w1, Ok ids) ->
  embed q = Some v ->
  storage_up w = true ->
  count c w1 <= k ->
  exists w2 results,
    search_documents embed similarity q c k w1 = (w2, Ok results)
    /\ Forall (fun id => exists r,
                 r ∈ results
                 /\ dict_get "doc_id" (sr_metadata r) = Some (PStr id)
                 /\ dict_get "client_id" (sr_metadata r) = Some (PInt c))
              ids.
Proof.
  intros Hadd Hv Hup Hk.
  assert (Hup1 : storage_up w1 = true).
  { apply add_documents_frame in Hadd as (-> & _). exact Hup. }
  rewrite search_documents_eq, Hv, Hup1.
  eexists _, _. split; [reflexivity|].
  apply add_documents_stored in Hadd.
  eapply Forall_impl; [exact Hadd|].
  intros id (f & Hf & Hc & Hd).
  exists (to_result (to_document (id, f))). split; [|simpl; auto].
  apply list_elem_of_In. apply in_map.
  apply list_elem_of_In. by apply hits_cover.
Qed.

(** A fragment filed under a new key adds one to the count of the
    filters it passes, and nothing to the others. *)
Lemma matching_insert_new flt id f (i : gmap string (Fragment Vec)) :
  i !! id = None ->
  length (matching flt (<[id := f]> i))
  = (if meta_matches flt (frag_meta f) then 1 else 0)
    + length (matching flt i).
Proof.
  intros Hnew. unfold matching.
  rewrite (map_to_list_insert i id f Hnew), filter_cons. simpl.
  destruct (meta_matches flt (frag_meta f)); reflexivity.
Qed.

Lemma vs_add_documents_new docs (w w' : World Vec) id :
  vs_add_documents embed docs w = (w', Ok tt) ->
  index w !! id = None ->
  Forall (fun d => dict_get "doc_id" (metadata d) <> Some (PStr id)) docs ->
  index w' !! id = None.
Proof.
  intros H Hnew Hall.
  by rewrite (vs_add_documents_other embed docs w w' id H Hall).
Qed.

(** A batch written under new, pairwise distinct keys adds to each
    filter the documents of the batch that pass it. *)
Lemma vs_add_documents_count flt docs (w w' : World Vec) :
  vs_add_documents embed docs w = (w', Ok tt) ->
  NoDup (map (fun d => dict_get "doc_id" (metadata d)) docs) ->
  Forall (fun d => forall id,
            dict_get "doc_id" (metadata d) = Some (PStr id) ->
            index w !! id = None) docs ->
  length (matching flt (index w'))
  = length (filter (fun d => meta_matches flt (metadata d)) docs)
    + length (matching flt (index w)).
Proof.
  revert w. induction docs as [|d docs IH]; intros w; simpl.
  - unfold ret. by intros [= <-].
  - unfold bind.
    destruct (vs_insert embed d w) as [w1 [[]|e]] eqn:E; [|discriminate].
    intros H Hnd Hnew.
    apply NoDup_cons in Hnd as [Hnotin Hnd].
    apply Forall_cons in Hnew as [Hd Hnew].
    apply vs_insert_ok in E as (id & v & Hid & _ & _ & Hi & _).
    rewrite (IH w1 H Hnd).
    + rewrite Hi, matching_insert_new by (by apply Hd).
      rewrite filter_cons. simpl.
      destruct (meta_matches flt (metadata d)); simpl; lia.
    + apply Forall_forall. intros d' Hd' id' Hid'.
      rewrite Hi, lookup_insert_ne.
      * rewrite Forall_forall in Hnew. by eapply Hnew.
      * intros ->. apply Hnotin. rewrite Hid, <- Hid'.
        apply list_elem_of_In.
        apply (in_map (fun d => dict_get "doc_id" (metadata d))).
        by apply list_elem_of_In.
Qed.

Lemma filter_all {A} (P : A -> Prop) `{forall x, Decision (P x)} (l : list A) :
  Forall P l -> filter P l = l.
Proof.
  induction 1 as [|x l Hx Hl IH]; [reflexivity|].
  by rewrite filter_cons, decide_True, IH.
Qed.

Lemma filter_none {A} (P : A -> Prop) `{forall x, Decision (P x)} (l : list A) :
  Forall (fun x => ~ P x) l -> filter P l = [].
Proof.
  induction 1 as [|x l Hx Hl IH]; [reflexivity|].
  by rewrite filter_cons, decide_False, IH.
Qed.

Lemma add_documents_ok_world documents c (w w1 : World Vec) ids :
  add_documents embed documents c w = (w1, Ok ids) ->
  exists w0 built,
    build_documents documents c w = (w0, Ok built)
    /\ ids = map fst built
    /\ ((built = [] /\ w1 = w0)
        \/ vs_add_documents embed (map snd built) w0 = (w1, Ok tt)).
Proof.
  rewrite add_documents_eq.
  destruct (build_documents documents c w) as [w0 [built|e]]; [|discriminate].
  destruct (map snd built) as [|d docs] eqn:Hdocs.
  - intros [= <- <-]. exists w0, built. repeat split.
    left. by destruct built.
  - destruct (vs_add_documents embed (d :: docs) w0) as [w2 [[]|e]] eqn:E;
      [|discriminate].
    intros [= <- <-]. exists w0, built. repeat split.
    right. rewrite Hdocs. exact E.
Qed.

(** X4: In a collection whose keys were all drawn from the supply, a
    successful [add_documents] adds exactly the fragments it returns
    to its tenant, and leaves the count of every other tenant as it
    was. *)
Theorem add_documents_counts
  (documents : list dict) (c : Z) (w w1 : World Vec) (ids : list string) :
  keys_drawn w ->
  add_documents embed documents c w = (w1, Ok ids) ->
  count c w1 = count c w + length ids
  /\ (forall b, b <> c -> count b w1 = count b w).
Proof.
  intros Hdrawn H.
  apply add_documents_ok_world in H as (w0 & built & Hb & -> & Hstore).
  pose proof (build_documents_frame _ _ _ _ _ Hb) as F.
  apply build_documents_spec in Hb as [Hn0 Hwb].
  assert (Hi0 : index w0 = index w) by (by rewrite F).
  destruct Hstore as [[-> ->] | Hstore].
  { unfold count. rewrite Hi0. simpl. split; [lia|auto]. }
  pose proof (well_built_NoDup _ _ _ Hwb) as Hnd.
  assert (Hkeys : NoDup (map (fun d => dict_get "doc_id" (metadata d))
                             (map snd built))).
  { replace (map (fun d => dict_get "doc_id" (metadata d)) (map snd built))
      with (map (fun id => Some (PStr id)) (map fst built)).
    - change (NoDup ((fun id => Some (PStr id)) <$> map fst built)).
      apply NoDup_fmap_2; [|exact Hnd]. intros a b. congruence.
    - destruct Hwb as [_ Hall]. rewrite !map_map.
      apply map_ext_in. intros p Hp. apply list_elem_of_In in Hp.
      rewrite Forall_forall in Hall. symmetry. by apply Hall. }
  assert (Hnew : Forall (fun d => forall id,
                           dict_get "doc_id" (metadata d) = Some (PStr id) ->
                           index w0 !! id = None) (map snd built)).
  { apply Forall_forall. intros d Hd id Hid.
    apply list_elem_of_In, in_map_iff in Hd as ([id0 d0] & <- & Hin).
    apply list_elem_of_In in Hin.
    assert (Hid0 : id0 ∈ map fst built).
    { apply list_elem_of_In. apply (in_map fst _ (id0, d0)).
      by apply list_elem_of_In. }
    destruct (well_built_elem _ _ _ _ Hwb Hid0) as (m & -> & Hm).
    destruct Hwb as [_ Hall]. rewrite Forall_forall in Hall.
    destruct (Hall _ Hin) as [_ Hdoc]. simpl in *.
    rewrite Hdoc in Hid. injection Hid as <-.
    rewrite Hi0. destruct (index w !! uuid_of m) as [f|] eqn:E; [|reflexivity].
    destruct (Hdrawn _ _ E) as (n & Heq & Hlt).
    apply uuid_of_inj in Heq. lia. }
  assert (Hclient : Forall (fun d => dict_get "client_id" (metadata d)
                                     = Some (PInt c)) (map snd built)).
  { destruct Hwb as [_ Hall]. apply Forall_forall. intros d Hd.
    apply list_elem_of_In, in_map_iff in Hd as (p & <- & Hin).
    apply list_elem_of_In in Hin.
    rewrite Forall_forall in Hall. by apply Hall. }
  unfold count. split.
  - fold (client_filter c).
    rewrite (vs_add_documents_count _ _ _ _ Hstore Hkeys Hnew).
    rewrite filter_all.
    + rewrite Hi0, !length_map. lia.
    + eapply Forall_impl; [exact Hclient|].
      intros d Hd. apply Is_true_eq_left. by apply meta_matches_client_intro.
  - intros b Hb. fold (client_filter b).
    rewrite (vs_add_documents_count _ _ _ _ Hstore Hkeys Hnew).
    rewrite filter_none; [by rewrite Hi0|].
    eapply Forall_impl; [exact Hclient|].
    intros d Hd Hm. apply Is_true_eq_true, meta_matches_client in Hm.
    congruence.
Qed.

(** X5: Documents whose content is empty have no chunk: the call returns
    no identifier and leaves the state as it was, also while the
    storage cannot be reached. *)
Theorem add_documents_nothing_to_store
  (documents : list dict) (c : Z) (w : World Vec) :
  Forall (fun d => dict_get "content" d = Some (PStr "")) documents ->
  add_documents embed documents c w = (w, Ok []).
Proof.
  intros Hall. rewrite add_documents_eq.
  assert (Hb : build_documents documents c w = (w, Ok [])).
  { induction Hall as [|d documents Hd Hall IH]; [reflexivity|].
    simpl. unfold bind at 1. unfold getitem. rewrite Hd. unfold ret at 1.
    unfold bind at 1. simpl. unfold lift_result.
    change (Chunker.chunk "" chunk_size chunk_overlap) with (@Ok (list string) []).
    unfold bind at 1. simpl. unfold ret at 1.
    unfold bind. rewrite IH. reflexivity. }
  rewrite Hb. reflexivity.
Qed.

(** X6: A document without ['content'] stops the call before anything is
    embedded or stored, for the documents before it as well. *)
Theorem add_documents_validates_first
  (documents : list dict) (c : Z) (w : World Vec) (d : dict) :
  d ∈ documents ->
  dict_get "content" d = None ->
  exists w' e,
    add_documents embed documents c w = (w', Raise e)
    /\ (e = KeyError "content" \/ exists msg, e = TypeError msg)
    /\ index w' = index w
    /\ embed_log w' = embed_log w.
Proof.
  intros Hin Hd. rewrite add_documents_eq.
  destruct (build_documents documents c w) as [w0 r] eqn:Hb.
  pose proof (build_documents_frame _ _ _ _ _ Hb) as F.
  assert (Hr : exists e, r = Raise e
                         /\ (e = KeyError "content" \/ exists msg, e = TypeError msg)).
  { clear F. revert w w0 r Hb.
    induction documents as [|doc documents IH]; intros w w0 r;
      [by apply elem_of_nil in Hin|].
    simpl. unfold bind at 1. unfold getitem.
    destruct (dict_get "content" doc) as [content|] eqn:Hdoc;
      unfold ret, raise; [|intros [= _ <-]; eauto].
    unfold bind at 1.
    destruct (split_text content w) as [w1 [chunks|e]] eqn:E1.
    2: { intros [= _ <-]. exists e. split; [reflexivity|].
         unfold split_text in E1.
         destruct content; unfold raise, lift_result in E1;
           try (injection E1 as _ <-; eauto).
         unfold Chunker.chunk in E1. simpl in E1. discriminate. }
    unfold bind at 1.
    destruct (build_chunks_spec doc c 0 chunks w1) as (here & -> & _).
    unfold bind.
    destruct (build_documents documents c _) as [w3 r3] eqn:E3.
    apply elem_of_cons in Hin as [-> | Hin]; [congruence|].
    destruct (IH Hin _ _ _ E3) as (e & -> & He).
    intros [= _ <-]. eauto. }
  destruct Hr as (e & -> & He).
  exists w0, e. split; [reflexivity|]. split; [exact He|].
  rewrite F. split; reflexivity.
Qed.

(** ** Deleting *)

Lemma lookup_delete_keys_notin ids (i : gmap string (Fragment Vec)) k :
  PStr k ∉ ids -> delete_keys ids i !! k = i !! k.
Proof.
  induction ids as [|id ids IH]; simpl; [reflexivity|].
  intros Hnotin. apply not_elem_of_cons in Hnotin as [Hne Hnotin].
  destruct id; try (by apply IH).
  rewrite lookup_delete_ne by congruence. by apply IH.
Qed.

(** In a well-formed collection the ids read off a search of the
    tenant are keys of fragments of the tenant. *)
Lemma result_doc_ids_of_tenant v c k (i : gmap string (Fragment Vec)) id :
  index_wf i ->
  PStr id ∈ result_doc_ids (hits similarity v k (client_filter c) i) ->
  exists f, i !! id = Some f
            /\ dict_get "client_id" (frag_meta f) = Some (PInt c).
Proof.
  intros Hwf Hin. unfold result_doc_ids in Hin.
  apply list_elem_of_In, in_map_iff in Hin as (doc & Hdoc & Hin).
  apply list_elem_of_In, list_elem_of_filter in Hin as [_ Hin].
  apply elem_of_hits in Hin as ([key f] & -> & Hkf).
  apply elem_of_matching in Hkf as [Hm Hk]. simpl in *.
  destruct (Hwf _ _ Hk) as [Hd _].
  unfold dict_get_none, dict_get_default in Hdoc. rewrite Hd in Hdoc.
  injection Hdoc as ->. exists f. split; [exact Hk|].
  by apply meta_matches_client.
Qed.

(** X7: In a well-formed collection [delete_client_documents] leaves the
    fragments of every other tenant where they are, and it never adds
    a fragment. *)
Theorem delete_client_documents_spares_others
  (c : Z) (w w' : World Vec) (r : result bool) :
  index_wf (index w) ->
  delete_client_documents embed similarity c w = (w', r) ->
  (forall id f,
     index w !! id = Some f ->
     dict_get "client_id" (frag_meta f) <> Some (PInt c) ->
     index w' !! id = Some f)
  /\ (forall id f, index w' !! id = Some f -> index w !! id = Some f).
Proof.
  intros Hwf. rewrite delete_client_documents_eq.
  destruct (embed "") as [v|]; [|by intros [= <- _]].
  destruct (storage_up w); [|by intros [= <- _]].
  intros [= <- _]. simpl. split.
  - intros id f Hi Hc.
    rewrite lookup_delete_keys_notin; [exact Hi|].
    intros Hin.
    apply result_doc_ids_of_tenant in Hin as (f' & Hi' & Hc'); [|exact Hwf].
    congruence.
  - intros id f Hi. by apply lookup_delete_keys_Some in Hi as [Hi _].
Qed.





(** X9: [delete_client_documents] never raises: it returns [True] exactly
    when the embedding model answers for the empty text and the
    storage is reachable, and when it returns [False] the collection
    is as it was. *)
Theorem delete_client_documents_reports (c : Z) (w : World Vec) :
  exists w',
    delete_client_documents embed similarity c w
    = (w', Ok (match embed "" with
               | Some _ => storage_up w
               | None => false
               end))
    /\ (embed "" = None \/ storage_up w = false -> index w' = index w).
Proof.
  rewrite delete_client_documents_eq.
  destruct (embed "") as [v|]; [destruct (storage_up w)|];
    eexists; (split; [reflexivity|]); intros [H|H]; try discriminate;
    reflexivity.
Qed.

(** ** Enumerating *)

Lemma key_eqb_refl k : hashable k = true -> key_eqb k k = true.
Proof.
  destruct k; simpl; try discriminate; intros _.
  - reflexivity.
  - apply Z.eqb_refl.
  - apply String.eqb_refl.
Qed.

(** A group that lists its chunks gets one more by [append_chunk]. *)
Lemma append_chunk_one_more ch (g : dict) l :
  dict_get "chunks" g = Some (PList l) ->
  dict_get "chunks" (append_chunk ch g) = Some (PList (l ++ [ch])).
Proof.
  induction g as [|[k x] g IH]; [discriminate|].
  rewrite append_chunk_cons, dict_get_cons, (String.eqb_sym "chunks" k).
  destruct (String.eqb k "chunks") eqn:E.
  - intros [= ->]. by rewrite dict_get_cons, (String.eqb_sym "chunks" k), E.
  - intros H. rewrite dict_get_cons, (String.eqb_sym "chunks" k), E. auto.
Qed.

Lemma sources_append_member k ch (srcs : list (pyval * dict)) :
  sources_mem k srcs = true ->
  Forall (fun kg => exists l, dict_get "chunks" (snd kg) = Some (PList l))
         srcs ->
  total_chunks (map snd (sources_append k ch srcs))
  = S (total_chunks (map snd srcs))
  /\ Forall (fun kg => exists l, dict_get "chunks" (snd kg) = Some (PList l))
            (sources_append k ch srcs).
Proof.
  intros Hmem Hall. induction Hall as [|[k' g] srcs [l Hg] Hall IH];
    [discriminate|].
  simpl in Hmem |- *. destruct (key_eqb k k') eqn:E; simpl.
  - pose proof (append_chunk_one_more ch g l Hg) as Hg'. simpl in Hg.
    split.
    + unfold chunks_of. rewrite Hg', Hg, length_app. simpl. lia.
    + constructor; [by eexists|exact Hall].
  - destruct (IH Hmem) as [IH1 IH2]. split.
    + rewrite IH1. lia.
    + constructor; [by exists l|exact IH2].
Qed.

Lemma sources_mem_app k (srcs1 srcs2 : list (pyval * dict)) :
  sources_mem k (srcs1 ++ srcs2) = sources_mem k srcs1 || sources_mem k srcs2.
Proof.
  induction srcs1 as [|[k' g] srcs1 IH]; simpl; [reflexivity|].
  by rewrite IH, orb_assoc.
Qed.

(** With hashable source ids the grouping lists every document once. *)
Lemma group_by_source_exact results (srcs : list (pyval * dict)) :
  Forall (fun kg => exists l, dict_get "chunks" (snd kg) = Some (PList l))
         srcs ->
  Forall (fun doc =>
            hashable (dict_get_default "source_id" (PStr "unknown")
                                       (metadata doc)) = true) results ->
  exists srcs',
    group_by_source srcs results = Ok srcs'
    /\ total_chunks (map snd srcs')
       = total_chunks (map snd srcs) + length results.
Proof.
  intros Hsrcs Hres. revert srcs Hsrcs.
  induction Hres as [|doc results Hdoc Hres IH]; intros srcs Hsrcs; simpl.
  - exists srcs. split; [reflexivity|lia].
  - unfold group_step. rewrite Hdoc.
    set (k := dict_get_default "source_id" (PStr "unknown") (metadata doc)).
    set (srcs1 := if sources_mem k srcs then srcs
                  else (srcs ++ [(k, new_group k (metadata doc))])%list).
    assert (H1 : sources_mem k srcs1 = true
                 /\ total_chunks (map snd srcs1) = total_chunks (map snd srcs)
                 /\ Forall (fun kg => exists l,
                              dict_get "chunks" (snd kg) = Some (PList l))
                           srcs1).
    { unfold srcs1. destruct (sources_mem k srcs) eqn:Hmem; [auto|].
      split; [|split].
      - rewrite sources_mem_app. simpl.
        rewrite (key_eqb_refl k Hdoc). by rewrite orb_true_r.
      - rewrite map_app, total_chunks_app. simpl. unfold chunks_of. simpl.
        lia.
      - apply Forall_app. split; [exact Hsrcs|].
        constructor; [|constructor]. by exists []. }
    destruct H1 as (Hmem & Htot & Hall).
    destruct (sources_append_member k (chunk_entry doc) srcs1 Hmem Hall)
      as [Hone Hall'].
    destruct (IH _ Hall') as (srcs' & -> & Htotal).
    exists srcs'. split; [reflexivity|]. lia.
Qed.

(** X10: For a tenant of at most 1000 fragments whose source ids are
    hashable, [get_client_documents] lists every fragment of the
    tenant exactly once, when the embedding model and the storage
    answer. *)
Theorem get_client_documents_lists_all
  (c : Z) (w : World Vec) (v : Vec) :
  embed "" = Some v ->
  storage_up w = true ->
  count c w <= 1000 ->
  (forall id f,
     index w !! id = Some f ->
     hashable (dict_get_default "source_id" (PStr "unknown") (frag_meta f))
     = true) ->
  exists w' groups,
    get_client_documents embed similarity c w = (w', Ok groups)
    /\ total_chunks groups = count c w.
Proof.
  intros Hv Hup Hcount Hhash.
  unfold get_client_documents, try_except. unfold bind at 1.
  rewrite similarity_search_eq, Hv, Hup.
  unfold bind, lift_result, ret.
  destruct (group_by_source_exact
              (hits similarity v 1000 (client_filter c) (index w)) [])
    as (srcs & Hg & Htotal).
  - constructor.
  - apply Forall_forall. intros doc Hdoc.
    apply elem_of_hits in Hdoc as ([key f] & -> & Hkf).
    apply elem_of_matching in Hkf as [_ Hk]. simpl in *.
    by eapply Hhash.
  - rewrite Hg. eexists _, _. split; [reflexivity|].
    rewrite Htotal. simpl.
    rewrite hits_covering by exact Hcount.
    by rewrite length_map, rank_Permutation.
Qed.

(** ** Reindexing *)

(** X11: The task never fails and never adds a fragment: whatever the
    client and the state, it reports [completed]; a falsy client id
    leaves the state untouched, and so does an unreachable storage
    the collection. *)
Theorem reindex_documents_task_always_completes
  (client_id : option Z) (w : World Vec) :
  exists w' report,
    reindex_documents_task embed similarity client_id w = (w', Ok report)
    /\ dict_get "status" report = Some (PStr "completed")
    /\ (forall id f, index w' !! id = Some f -> index w !! id = Some f)
    /\ (storage_up w = false -> index w' = index w)
    /\ (match client_id with
        | Some c => truthy (PInt c) = false
        | None => True
        end -> w' = w).
Proof.
  destruct client_id as [c|].
  2: { exists w. eexists. split; [reflexivity|]. repeat split; auto. }
  destruct (truthy (PInt c)) eqn:Hc.
  - destruct (reindex_is_delete embed similarity c w Hc)
      as (groups & w2 & b & _ & Hdel & ->).
    exists w2. eexists. split; [reflexivity|]. split; [reflexivity|].
    rewrite delete_client_documents_eq in Hdel. simpl in Hdel.
    split; [|split].
    + intros id f.
      destruct (embed ""); [destruct (storage_up w)|];
        injection Hdel as <- _; simpl; auto.
      intros Hi. by apply lookup_delete_keys_Some in Hi as [Hi _].
    + intros Hdown. rewrite Hdown in Hdel.
      destruct (embed ""); by injection Hdel as <- _.
    + discriminate.
  - exists w. eexists. unfold reindex_documents_task, try_except. rewrite Hc.
    split; [reflexivity|]. repeat split; auto.
Qed.

End ServiceProperties.

(** * Invariants of a run *)

Section RunProperties.

Context {Vec : Type}.
Variable embed : string -> option Vec.
Variable similarity : Vec -> Vec -> Z.
Variable llm : string -> list Document -> option string.
Variable client_exists : Z -> bool.
Variable gemini_api_key : option string.

(** ** Callers keep what the methods keep *)

Section Keeps.

Variable I : World Vec -> Prop.

Lemma keeps_cret {A} (a : A) : keeps I (cret a).
Proof. intros w H. exact H. Qed.

Lemma keeps_craise {A} e : keeps I (@craise Vec A e).
Proof. intros w H. exact H. Qed.

Lemma keeps_cbind {A B} (m : C A) (k : A -> C B) :
  keeps I m -> (forall a, keeps I (k a)) -> keeps I (cbind m k).
Proof.
  intros Hm Hk w H. unfold cbind.
  specialize (Hm w H). destruct (m w) as [w1 [a|e]]; simpl in *.
  - by apply Hk.
  - exact Hm.
Qed.

Lemma keeps_call {A} (m : World Vec -> World Vec * result A) :
  keeps I m -> keeps I (call m).
Proof.
  intros Hm w H. unfold call.
  specialize (Hm w H). by destruct (m w) as [w1 [a|e]].
Qed.

Lemma keeps_task (body : C dict) : keeps I body -> keeps I (task body).
Proof.
  intros Hm w H. unfold task.
  specialize (Hm w H). by destruct (body w) as [w1 [a|e]].
Qed.

Lemma keeps_route {A} (body : C A) : keeps I body -> keeps I (route body).
Proof.
  intros Hm w H. unfold route.
  specialize (Hm w H). by destruct (body w) as [w1 [a|[]]].
Qed.

Lemma keeps_if {A} (b : bool) (m1 m2 : World Vec -> World Vec * A) :
  keeps I m1 -> keeps I m2 -> keeps I (if b then m1 else m2).
Proof. by destruct b. Qed.

Hypothesis keeps_add :
  forall documents c, keeps I (add_documents embed documents c).
Hypothesis keeps_search :
  forall q c k, keeps I (search_documents embed similarity q c k).
Hypothesis keeps_query :
  forall q c, keeps I (query embed similarity llm q c).
Hypothesis keeps_get :
  forall c, keeps I (get_client_documents embed similarity c).
Hypothesis keeps_delete :
  forall c, keeps I (delete_client_documents embed similarity c).
Hypothesis keeps_storage :
  forall up w, I w -> I (set_storage up w).

Lemma keeps_setup key : keeps I (@setup_qa_chain Vec key).
Proof. intros w H. exact H. Qed.

Lemma keeps_get_qa_chain : keeps I (@get_qa_chain Vec).
Proof. intros w H. exact H. Qed.

Lemma keeps_reindex client_id :
  keeps I (reindex_documents_task embed similarity client_id).
Proof.
  intros w H. destruct client_id as [c|]; [|exact H].
  destruct (truthy (PInt c)) eqn:Hc.
  - destruct (reindex_is_delete embed similarity c w Hc)
      as (groups & w2 & b & Hget & Hdel & ->).
    simpl. pose proof (keeps_get c w H) as H1. rewrite Hget in H1.
    simpl in H1.
    pose proof (keeps_delete c _ H1) as H2. by rewrite Hdel in H2.
  - unfold reindex_documents_task, try_except. by rewrite Hc.
Qed.

(** What the methods keep, every event keeps. *)
Lemma step_keeps w ev :
  I w ->
  I (step embed similarity llm client_exists gemini_api_key w ev).
Proof.
  intros H. destruct ev; simpl.
  - by apply keeps_add.
  - by apply keeps_search.
  - exact H.
  - by apply keeps_query.
  - by apply keeps_get.
  - by apply keeps_delete.
  - revert w H. apply keeps_task, keeps_cbind.
    + unfold require_client_task.
      apply keeps_if; [apply keeps_cret|apply keeps_craise].
    + intros _. apply keeps_cbind; [apply keeps_call, keeps_add|].
      intros ids. apply keeps_cret.
  - revert w H. apply keeps_task, keeps_cbind.
    + apply keeps_if; [apply keeps_cret|apply keeps_craise].
    + intros _. apply keeps_cbind; [apply keeps_call, keeps_setup|].
      intros _. apply keeps_cret.
  - revert w H. apply keeps_task, keeps_cbind.
    + unfold require_client_task.
      apply keeps_if; [apply keeps_cret|apply keeps_craise].
    + intros _. apply keeps_cbind; [apply keeps_call, keeps_delete|].
      intros b. apply keeps_if; [apply keeps_cret|apply keeps_craise].
  - by apply keeps_reindex.
  - revert w H. apply keeps_route, keeps_cbind.
    + unfold require_client.
      apply keeps_if; [apply keeps_cret|apply keeps_craise].
    + intros _. apply keeps_cbind.
      * unfold require_key.
        apply keeps_if; [apply keeps_cret|apply keeps_craise].
      * intros _. apply keeps_cbind; [apply keeps_call, keeps_get_qa_chain|].
        intros chain. apply keeps_cbind.
        -- apply keeps_if; [apply keeps_call, keeps_setup|apply keeps_cret].
        -- intros _. apply keeps_cbind; [apply keeps_call, keeps_query|].
           intros a. apply keeps_cret.
  - revert w H. apply keeps_route, keeps_cbind.
    + unfold require_client.
      apply keeps_if; [apply keeps_cret|apply keeps_craise].
    + intros _. apply keeps_cbind; [apply keeps_call, keeps_add|].
      intros ids. apply keeps_cret.
  - revert w H. apply keeps_route, keeps_cbind.
    + unfold require_client.
      apply keeps_if; [apply keeps_cret|apply keeps_craise].
    + intros _. apply keeps_cbind; [apply keeps_call, keeps_search|].
      intros rs. apply keeps_cret.
  - revert w H. apply keeps_route, keeps_cbind.
    + unfold require_client.
      apply keeps_if; [apply keeps_cret|apply keeps_craise].
    + intros _. apply keeps_cbind; [apply keeps_call, keeps_get|].
      intros rs. apply keeps_cret.
  - revert w H. apply keeps_route, keeps_cbind.
    + unfold require_client.
      apply keeps_if; [apply keeps_cret|apply keeps_craise].
    + intros _. apply keeps_cbind; [apply keeps_call, keeps_delete|].
      intros b. apply keeps_if; [apply keeps_cret|apply keeps_craise].
  - revert w H. apply keeps_route, keeps_cbind.
    + unfold require_key.
      apply keeps_if; [apply keeps_cret|apply keeps_craise].
    + intros _. apply keeps_cbind; [apply keeps_call, keeps_setup|].
      intros _. apply keeps_cret.
  - by apply keeps_storage.
Qed.

Lemma run_keeps events w :
  I w ->
  I (run embed similarity llm client_exists gemini_api_key w events).
Proof.
  revert w. induction events as [|ev events IH]; intros w H; simpl.
  - exact H.
  - apply IH. by apply step_keeps.
Qed.

End Keeps.

(** ** The chain is never set *)

Lemma run_keeps_chain_unset events (w : World Vec) :
  qa_chain w = false ->
  qa_chain (run embed similarity llm client_exists gemini_api_key w events)
  = false.
Proof.
  apply (run_keeps (fun w => qa_chain w = false)).
  - intros documents c w0 H.
    destruct (add_documents embed documents c w0) as [w1 r] eqn:E.
    simpl. apply add_documents_frame in E as (_ & -> & _). exact H.
  - intros q c k w0 H. by rewrite search_documents_world.
  - intros q c w0 H.
    by destruct (query_world embed similarity llm q c w0) as (_ & _ & _ & ->).
  - intros c w0 H. by rewrite get_client_documents_world.
  - intros c w0 H.
    destruct (delete_client_documents_world embed similarity c w0) as [ids ->].
    exact H.
  - intros up w0 H. exact H.
Qed.

(** X12: No event ever sets the chain: [setup_qa_chain] raises before it
    assigns [self.qa_chain]. So after any run of a process that
    started without a chain, [query] answers that the chain is not
    initialized, and [POST /query] never answers 200: it answers 404
    for an unknown client, 400 without an API key, and 500 otherwise. *)
Theorem chain_never_set
  (events : list event) (q : string) (c : Z) (w : World Vec) :
  qa_chain w = false ->
  let w' := run embed similarity llm client_exists gemini_api_key w events in
  qa_chain w' = false
  /\ query embed similarity llm q c w'
     = (w', Ok (mkAnswer
                  "Error processing query: QA chain not initialized. Call setup_qa_chain first."
                  [] q))
  /\ query_rag embed similarity llm client_exists gemini_api_key q c w'
     = (w', if negb (client_exists c)
            then HttpError 404 "Client not found"
            else if negb (key_configured gemini_api_key)
                 then HttpError 400 "Gemini API key not configured"
                 else HttpError 500 "name 'client_id' is not defined").
Proof.
  intros Hw w'.
  assert (Hq : qa_chain w' = false) by (by apply run_keeps_chain_unset).
  split; [exact Hq|]. split.
  - unfold query, try_except.
    by rewrite (query_body_uninitialised embed similarity llm q c w' Hq).
  - unfold query_rag, route, cbind, require_client, require_key, call,
      get_qa_chain, cret, craise.
    destruct (client_exists c); [|reflexivity]. simpl.
    destruct (key_configured gemini_api_key); [|reflexivity]. simpl.
    rewrite Hq. reflexivity.
Qed.

(** ** The collection stays well formed *)

Lemma vs_add_documents_keys_below n docs (w w' : World Vec) r :
  vs_add_documents embed docs w = (w', r) ->
  Forall (fun d => forall id,
            dict_get "doc_id" (metadata d) = Some (PStr id) ->
            exists m, id = uuid_of m /\ m < n) docs ->
  (forall id f, index w !! id = Some f -> exists m, id = uuid_of m /\ m < n) ->
  forall id f, index w' !! id = Some f -> exists m, id = uuid_of m /\ m < n.
Proof.
  revert w. induction docs as [|d docs IH]; intros w; simpl.
  - unfold ret. by intros [= <- _].
  - unfold bind. intros H Hall Hw.
    apply Forall_cons in Hall as [Hd Hall].
    assert (Hstep : forall w1 r1,
              vs_insert embed d w = (w1, r1) ->
              forall id f, index w1 !! id = Some f ->
                           exists m, id = uuid_of m /\ m < n).
    { intros w1 [[]|e] E.
      - apply vs_insert_ok in E as (id0 & v & Hid & _ & _ & -> & _).
        intros id f. rewrite lookup_insert. case_decide as Heq.
        + subst id. intros _. by apply Hd.
        + apply Hw.
      - apply vs_insert_raise_index in E. by rewrite E. }
    destruct (vs_insert embed d w) as [w1 [[]|e]] eqn:E.
    + eapply IH; [exact H|exact Hall|]. by eapply Hstep.
    + injection H as <- _. by eapply Hstep.
Qed.

Lemma add_documents_keys_drawn documents c (w w' : World Vec) r :
  keys_drawn w ->
  add_documents embed documents c w = (w', r) ->
  keys_drawn w'.
Proof.
  intros Hdrawn. rewrite add_documents_eq.
  destruct (build_documents documents c w) as [w0 [built|e]] eqn:Hb;
    pose proof (build_documents_frame _ _ _ _ _ Hb) as F;
    pose proof (build_documents_mono _ _ _ _ _ Hb) as Hmono.
  2: { intros [= <- _]. intros id f Hi. rewrite F in Hi. simpl in Hi.
       destruct (Hdrawn _ _ Hi) as (m & -> & Hm). exists m. split; [done|lia]. }
  assert (Hdrawn0 : forall id f,
            index w0 !! id = Some f ->
            exists m, id = uuid_of m /\ m < uuid_next w0).
  { intros id f Hi. rewrite F in Hi. simpl in Hi.
    destruct (Hdrawn _ _ Hi) as (m & -> & Hm). exists m. split; [done|lia]. }
  apply build_documents_spec in Hb as [Hn Hwb].
  destruct (map snd built) as [|d docs] eqn:Hdocs.
  { by intros [= <- _]. }
  destruct (vs_add_documents embed (d :: docs) w0) as [w1 r1] eqn:E.
  assert (Hw1 : keys_drawn w1).
  { pose proof (vs_add_documents_frame embed _ _ _ _ E) as (_ & Hu & _).
    unfold keys_drawn. rewrite Hu.
    eapply (vs_add_documents_keys_below (uuid_next w0)); [exact E| |exact Hdrawn0].
    rewrite <- Hdocs. apply Forall_forall. intros d' Hd' id Hid.
    apply list_elem_of_In, in_map_iff in Hd' as ([id0 d0] & <- & Hin).
    apply list_elem_of_In in Hin.
    assert (Hid0 : id0 ∈ map fst built).
    { apply list_elem_of_In. apply (in_map fst _ (id0, d0)).
      by apply list_elem_of_In. }
    destruct (well_built_elem _ _ _ _ Hwb Hid0) as (m & -> & Hm).
    destruct Hwb as [_ Hall]. rewrite Forall_forall in Hall.
    destruct (Hall _ Hin) as [_ Hdoc]. simpl in *.
    rewrite Hdoc in Hid. injection Hid as <-.
    exists m. split; [reflexivity|lia]. }
  destruct r1 as [[]|e]; by intros [= <- _].
Qed.


(** ** Identifiers are never used twice *)

Lemma run_uuid_mono events (w : World Vec) :
  uuid_next w
  <= uuid_next (run embed similarity llm client_exists gemini_api_key
                    w events).
Proof.
  apply (run_keeps (fun w' => uuid_next w <= uuid_next w')); [..|lia].
  - intros documents c w0 H.
    destruct (add_documents embed documents c w0) as [w1 r] eqn:E.
    apply add_documents_frame in E as (_ & _ & E). simpl. lia.
  - intros q c k w0 H. by rewrite search_documents_world.
  - intros q c w0 H.
    by destruct (query_world embed similarity llm q c w0) as (_ & -> & _).
  - intros c w0 H. by rewrite get_client_documents_world.
  - intros c w0 H.
    destruct (delete_client_documents_world embed similarity c w0) as [ids ->].
    exact H.
  - intros up w0 H. exact H.
Qed.

(** X14: The identifiers that one call of [add_documents] returns are
    never returned again, by no later call of the process, whatever
    happens in between. *)
Theorem identifiers_never_reused
  (documents1 documents2 : list dict) (c1 c2 : Z) (events : list event)
  (w w1 w2 : World Vec) (ids1 ids2 : list string) :
  add_documents embed documents1 c1 w = (w1, Ok ids1) ->
  add_documents embed documents2 c2
    (run embed similarity llm client_exists gemini_api_key w1 events)
  = (w2, Ok ids2) ->
  Forall (fun id => id ∉ ids2) ids1.
Proof.
  intros H1 H2.
  pose proof (run_uuid_mono events w1) as Hmono.
  apply add_documents_ok in H1 as (w0 & built & Hb & -> & Hn & _).
  apply build_documents_spec in Hb as [Hn0 Hwb].
  apply add_documents_ok in H2 as (w0' & built' & Hb' & -> & _ & _).
  apply build_documents_spec in Hb' as [_ Hwb'].
  apply Forall_forall. intros id Hid Hid'.
  destruct (well_built_elem _ _ _ _ Hwb Hid) as (m & -> & Hm).
  destruct (well_built_elem _ _ _ _ Hwb' Hid') as (m' & Heq & Hm').
  apply uuid_of_inj in Heq. lia.
Qed.

(** ** What the callers report *)

(** X15: Ingestion through [process_document_task] and through
    [POST /documents]: for an unknown client nothing is drawn,
    embedded or stored; and when the caller reports success, the
    identifiers it lists all name fragments of the collection that
    carry this client. *)
Theorem ingestion_callers_report
  (c : Z) (document_data : dict) (content title source_type : string)
  (md : option dict) (w : World Vec) :
  (exists w' report,
     process_document_task embed client_exists c document_data w
     = (w', report)
     /\ (client_exists c = false ->
         w' = w
         /\ report = [ ("status", PStr "failed");
                       ("error",
                        PStr ("Client " +:+ pretty c +:+ " not found")) ])
     /\ (dict_get "status" report = Some (PStr "completed") ->
         client_exists c = true
         /\ exists ids,
              dict_get "document_ids" report = Some (PList (map PStr ids))
              /\ Forall (fun id => exists f,
                           index w' !! id = Some f
                           /\ dict_get "client_id" (frag_meta f)
                              = Some (PInt c)) ids))
  /\ (exists w' response,
        add_document embed client_exists c content title source_type md w
        = (w', response)
        /\ (client_exists c = false ->
            w' = w /\ response = HttpError 404 "Client not found")
        /\ (forall body,
              response = Http200 body ->
              client_exists c = true
              /\ exists ids,
                   dict_get "document_ids" body = Some (PList (map PStr ids))
                   /\ Forall (fun id => exists f,
                                index w' !! id = Some f
                                /\ dict_get "client_id" (frag_meta f)
                                   = Some (PInt c)) ids)).
Proof.
  unfold process_document_task, add_document, task, route, cbind,
    require_client_task, require_client, call, cret, craise.
  destruct (client_exists c); split.
  - destruct (add_documents embed [document_data] c w) as [w1 [ids|e]] eqn:E;
      eexists _, _; (split; [reflexivity|]); (split; [discriminate|]).
    + intros _. split; [reflexivity|]. exists ids. split; [reflexivity|].
      apply add_documents_stored in E.
      eapply Forall_impl; [exact E|]. intros id (f & Hf & Hc & _). eauto.
    + discriminate.
  - destruct (add_documents embed _ c w) as [w1 [ids|e]] eqn:E;
      eexists _, _; (split; [reflexivity|]); (split; [discriminate|]).
    + intros body [= <-]. split; [reflexivity|].
      exists ids. split; [reflexivity|].
      apply add_documents_stored in E.
      eapply Forall_impl; [exact E|]. intros id (f & Hf & Hc & _). eauto.
    + discriminate.
  - eexists _, _. split; [reflexivity|]. split; [auto|discriminate].
  - eexists _, _. split; [reflexivity|]. split; [auto|discriminate].
Qed.

(** X16: Deletion through [cleanup_client_data_task] and through
    [DELETE /documents/{client_id}]: both report success exactly when
    the client is known, the embedding model answers for the empty
    text and the storage is reachable; for an unknown client the state
    is untouched. *)
Theorem deletion_callers_report (c : Z) (w : World Vec) :
  let ok :=
    client_exists c
    && match embed "" with Some _ => storage_up w | None => false end in
  (exists w' report,
     cleanup_client_data_task embed similarity client_exists c w
     = (w', report)
     /\ dict_get "status" report
        = Some (PStr (if ok then "completed" else "failed"))
     /\ (client_exists c = false -> w' = w))
  /\ (exists w' response,
        delete_client_documents_endpoint embed similarity client_exists c w
        = (w', response)
        /\ http_status response
           = (if ok then 200 else if client_exists c then 500 else 404)
        /\ (client_exists c = false -> w' = w)).
Proof.
  intros ok. unfold ok.
  unfold cleanup_client_data_task, delete_client_documents_endpoint, task,
    route, cbind, require_client_task, require_client, call, cret, craise.
  destruct (client_exists c); simpl.
  - rewrite delete_client_documents_eq.
    destruct (embed ""); [destruct (storage_up w)|];
      split; eexists _, _; (split; [reflexivity|]); split;
      try reflexivity; discriminate.
  - split; eexists _, _; (split; [reflexivity|]); split; reflexivity.
Qed.

Lemma search_documents_length q c k (w : World Vec) :
  length (returned (search_documents embed similarity q c k w)) <= k.
Proof.
  rewrite search_documents_eq. unfold returned. simpl.
  destruct (embed q) as [v|]; [|simpl; lia].
  destruct (storage_up w); [|simpl; lia].
  rewrite length_map. apply length_hits.
Qed.

Lemma get_client_documents_capped c (w : World Vec) :
  total_chunks (returned (get_client_documents embed similarity c w)) <= 1000.
Proof.
  unfold get_client_documents, try_except. unfold bind at 1.
  rewrite similarity_search_eq.
  destruct (embed "") as [v|]; [|unfold returned; simpl; lia].
  destruct (storage_up w); [|unfold returned; simpl; lia].
  unfold bind, lift_result, ret.
  destruct (group_by_source [] _) as [srcs|e] eqn:E;
    [|unfold returned; simpl; lia].
  unfold returned. simpl.
  apply group_by_source_total in E. simpl in E.
  pose proof (length_hits similarity v 1000 (client_filter c) (index w)). lia.
Qed.

(** X17: The reading endpoints [POST /search] and
    [GET /documents/{client_id}] answer 404 for an unknown client,
    without a call to the embedding model, and 200 for every known
    client, whatever the state of the storage: with at most [k]
    results, and with at most 1000 chunks. *)
Theorem reading_endpoints_never_fail
  (q : string) (c : Z) (k : nat) (w : World Vec) :
  (client_exists c = false ->
   search_documents_endpoint embed similarity client_exists q c k w
   = (w, HttpError 404 "Client not found")
   /\ get_client_documents_endpoint embed similarity client_exists c w
      = (w, HttpError 404 "Client not found"))
  /\ (client_exists c = true ->
      (exists w' results,
         search_documents_endpoint embed similarity client_exists q c k w
         = (w', Http200 results)
         /\ length results <= k)
      /\ (exists w' groups,
            get_client_documents_endpoint embed similarity client_exists c w
            = (w', Http200 groups)
            /\ total_chunks groups <= 1000)).
Proof.
  split; intros Hc.
  - unfold search_documents_endpoint, get_client_documents_endpoint, route,
      cbind, require_client, craise.
    rewrite Hc. split; reflexivity.
  - unfold search_documents_endpoint, get_client_documents_endpoint, route,
      cbind, require_client, call, cret.
    rewrite Hc. split.
    + pose proof (search_documents_length q c k w) as Hk.
      rewrite search_documents_eq in Hk |- *. unfold returned in Hk.
      eexists _, _. split; [reflexivity|exact Hk].
    + pose proof (get_client_documents_capped c w) as Hcap.
      destruct (get_client_documents_total embed similarity c w)
        as (groups & Hget & _).
      rewrite Hget in Hcap |- *. unfold returned in Hcap.
      eexists _, _. split; [reflexivity|exact Hcap].
Qed.


End RunProperties.

(** * The callers' scenarios, run *)

Lemma ingested_well_formed :
  index_wf (index Scenario.ingested) /\ keys_drawn Scenario.ingested.
Proof.
  assert (H : add_documents Scenario.embed_len [Scenario.doc2500] 7%Z
                            Scenario.fresh
              = (Scenario.ingested,
                 snd (add_documents Scenario.embed_len [Scenario.doc2500] 7%Z
                                    Scenario.fresh)))
    by apply surjective_pairing.
  split.
  - eapply add_documents_wf; [|exact H]. apply index_wf_empty.
  - eapply add_documents_keys_drawn; [|exact H].
    intros id f Hi. simpl in Hi. by rewrite lookup_empty in Hi.
Qed.

Lemma shared_well_formed :
  index_wf (index Scenario.shared) /\ keys_drawn Scenario.shared.
Proof.
  destruct ingested_well_formed as [H1 H2].
  assert (H : add_documents Scenario.embed_len [Scenario.note] 8%Z
                            Scenario.ingested
              = (Scenario.shared,
                 snd (add_documents Scenario.embed_len [Scenario.note] 8%Z
                                    Scenario.ingested)))
    by apply surjective_pairing.
  split.
  - eapply add_documents_wf; [exact H1|exact H].
  - eapply add_documents_keys_drawn; [exact H2|exact H].
Qed.

Lemma ingested_hashable :
  forall id f,
    index Scenario.ingested !! id = Some f ->
    hashable (dict_get_default "source_id" (PStr "unknown") (frag_meta f))
    = true.
Proof.
  pose (P := fun (_ : string) (f : Fragment nat) =>
              hashable (dict_get_default "source_id" (PStr "unknown")
                                         (frag_meta f)) = true).
  apply (proj1 (map_Forall_lookup P (index Scenario.ingested))).
  apply map_Forall_to_list. vm_compute. repeat constructor.
Qed.

Lemma search_documents_complete_witness :
  exists w' results,
    search_documents Scenario.embed_len Scenario.near "notes" 7%Z 5
                     Scenario.shared = (w', Ok results)
    /\ length results = count 7 Scenario.shared
    /\ (forall id f,
          index Scenario.shared !! id = Some f ->
          dict_get "client_id" (frag_meta f) = Some (PInt 7) ->
          mkSearchResult (frag_text f) (frag_meta f) 0 ∈ results).
Proof.
  apply (search_documents_complete
           Scenario.embed_len Scenario.near "notes" 5 7%Z 5 Scenario.shared).
  - reflexivity.
  - reflexivity.
  - vm_compute. lia.
Defined.

Lemma add_then_search_finds_witness :
  exists w2 results,
    search_documents Scenario.embed_len Scenario.near "notes" 8%Z 5
                     Scenario.shared = (w2, Ok results)
    /\ Forall (fun id => exists r,
                 r ∈ results
                 /\ dict_get "doc_id" (sr_metadata r) = Some (PStr id)
                 /\ dict_get "client_id" (sr_metadata r) = Some (PInt 8))
              ["uuid4-3"].
Proof.
  apply (add_then_search_finds
           Scenario.embed_len Scenario.near [Scenario.note] "notes" 5 8%Z 5
           Scenario.ingested Scenario.shared ["uuid4-3"]).
  - vm_compute. reflexivity.
  - reflexivity.
  - reflexivity.
  - vm_compute. lia.
Defined.

Lemma add_documents_counts_witness :
  count 8 Scenario.shared = count 8 Scenario.ingested + length ["uuid4-3"]
  /\ (forall b, b <> 8%Z -> count b Scenario.shared = count b Scenario.ingested).
Proof.
  apply (add_documents_counts
           Scenario.embed_len [Scenario.note] 8%Z
           Scenario.ingested Scenario.shared ["uuid4-3"]).
  - apply ingested_well_formed.
  - vm_compute. reflexivity.
Defined.

Lemma add_documents_nothing_to_store_witness :
  add_documents Scenario.embed_len
                [ [("content", PStr "")];
                  [("content", PStr ""); ("title", PStr "blank")] ]
                7%Z Scenario.offline
  = (Scenario.offline, Ok []).
Proof.
  apply (add_documents_nothing_to_store Scenario.embed_len).
  repeat constructor.
Defined.

Lemma add_documents_validates_first_witness :
  exists w' e,
    add_documents Scenario.embed_len
                  [Scenario.doc2500; [("title", PStr "untitled")]]
                  7%Z Scenario.fresh = (w', Raise e)
    /\ (e = KeyError "content" \/ exists msg, e = TypeError msg)
    /\ index w' = index Scenario.fresh
    /\ embed_log w' = embed_log Scenario.fresh.
Proof.
  apply (add_documents_validates_first
           Scenario.embed_len
           [Scenario.doc2500; [("title", PStr "untitled")]]
           7%Z Scenario.fresh [("title", PStr "untitled")]).
  - right. left.
  - reflexivity.
Defined.

Lemma delete_client_documents_spares_others_witness :
  (forall id f,
     index Scenario.shared !! id = Some f ->
     dict_get "client_id" (frag_meta f) <> Some (PInt 7) ->
     index (fst (delete_client_documents Scenario.embed_len Scenario.near 7%Z
                                         Scenario.shared)) !! id = Some f)
  /\ (forall id f,
        index (fst (delete_client_documents Scenario.embed_len Scenario.near
                                            7%Z Scenario.shared)) !! id
        = Some f ->
        index Scenario.shared !! id = Some f).
Proof.
  apply (delete_client_documents_spares_others
           Scenario.embed_len Scenario.near 7%Z Scenario.shared
           (fst (delete_client_documents Scenario.embed_len Scenario.near 7%Z
                                         Scenario.shared))
           (snd (delete_client_documents Scenario.embed_len Scenario.near 7%Z
                                         Scenario.shared))).
  - apply shared_well_formed.
  - apply surjective_pairing.
Defined.


Lemma get_client_documents_lists_all_witness :
  exists w' groups,
    get_client_documents Scenario.embed_len Scenario.near 7%Z
                         Scenario.ingested = (w', Ok groups)
    /\ total_chunks groups = count 7 Scenario.ingested.
Proof.
  apply (get_client_documents_lists_all
           Scenario.embed_len Scenario.near 7%Z Scenario.ingested 0).
  - reflexivity.
  - reflexivity.
  - vm_compute. lia.
  - apply ingested_hashable.
Defined.

Lemma chain_never_set_witness :
  qa_chain Session.closing = false
  /\ query Scenario.embed_len Scenario.near Scenario.llm_echo
           "what is in the notes" 7%Z Session.closing
     = (Session.closing,
        Ok (mkAnswer
              "Error processing query: QA chain not initialized. Call setup_qa_chain first."
              [] "what is in the notes"))
  /\ query_rag Scenario.embed_len Scenario.near Scenario.llm_echo
               Session.client_exists Session.gemini_api_key
               "what is in the notes" 7%Z Session.closing
     = (Session.closing,
        if negb (Session.client_exists 7)
        then HttpError 404 "Client not found"
        else if negb (key_configured Session.gemini_api_key)
             then HttpError 400 "Gemini API key not configured"
             else HttpError 500 "name 'client_id' is not defined").
Proof.
  apply (chain_never_set
           Scenario.embed_len Scenario.near Scenario.llm_echo
           Session.client_exists Session.gemini_api_key
           Session.events "what is in the notes" 7%Z Scenario.fresh).
  reflexivity.
Defined.


Lemma identifiers_never_reused_witness :
  Forall (fun id =>
            id ∉ returned
                   (add_documents Scenario.embed_len [Scenario.note] 8%Z
                      (run Scenario.embed_len Scenario.near Scenario.llm_echo
                           Session.client_exists Session.gemini_api_key
                           Scenario.ingested Session.events)))
         ["uuid4-0"; "uuid4-1"; "uuid4-2"].
Proof.
  apply (identifiers_never_reused
           Scenario.embed_len Scenario.near Scenario.llm_echo
           Session.client_exists Session.gemini_api_key
           [Scenario.doc2500] [Scenario.note] 7%Z 8%Z Session.events
           Scenario.fresh Scenario.ingested
           (fst (add_documents Scenario.embed_len [Scenario.note] 8%Z
                   (run Scenario.embed_len Scenario.near Scenario.llm_echo
                        Session.client_exists Session.gemini_api_key
                        Scenario.ingested Session.events)))).
  - vm_compute. reflexivity.
  - vm_compute. reflexivity.
Defined.
